(** * student_db: grade table, record store, report engine, class ranking

    A shallow embedding of [app.py].  The three SQLite tables are lists of
    records in rowid order; the data operations pass the store explicitly
    and return the Streamlit message they show.

    A REAL column holds float64 values.  A stored value is written as the
    rational it is ([Q]); what pandas computes from stored values (percent,
    credit points, totals, cgpa) is a float64 again and lives in
    [PyFloat.t]: every operation rounds its exact result to the nearest
    float64, ties to even, overflows to an infinity and yields an infinity
    or NaN on a zero divisor, without raising.  Zero carries no sign here:
    a stored -0.0 is outside the model. *)

From Stdlib Require Import List String ZArith QArith Qround Qabs Lia Lqa Bool
  Permutation Sorted.
Import ListNotations.

Local Open Scope Z_scope.
Local Open Scope Q_scope.
Local Open Scope string_scope.

(** ** Numbers *)

(** [numpy.rint]: nearest integer, ties to the even one. *)
Definition rint (q : Q) : Z :=
  let f := Qfloor q in
  match Qcompare (q - inject_Z f) (1 # 2) with
  | Lt => f
  | Gt => (f + 1)%Z
  | Eq => if Z.even f then f else (f + 1)%Z
  end.

Module PyFloat.

(** A float64 column entry: a finite value or one of the IEEE specials. *)
Inductive t : Type :=
| Fin (q : Q)
| PInf
| NInf
| NaN.

(** 2^k for any integer k. *)
Definition pow2 (k : Z) : Q :=
  if (0 <=? k)%Z then inject_Z (2 ^ k) else 1 # Z.to_pos (2 ^ (- k)).

(** The k with 2^k <= q < 2^(k+1), for q > 0. *)
Definition log2_floor (q : Q) : Z :=
  let k := (Z.log2 (Qnum q) - Z.log2 (Zpos (Qden q)))%Z in
  if Qle_bool (pow2 k) q then k else (k - 1)%Z.

(** IEEE 754 binary64 rounding of an exact result: 53 significant bits
    (fewer below 2^-1022), nearest with ties to even, an infinity from
    2^1024 on. *)
Definition nearest (q : Q) : t :=
  match Qcompare q 0 with
  | Eq => Fin 0
  | c =>
    let a := Qabs q in
    let ulp := pow2 (Z.max (log2_floor a) (-1022) - 52) in
    let r := inject_Z (rint (a / ulp)) * ulp in
    if Qle_bool (pow2 1024) r
    then match c with Gt => PInf | _ => NInf end
    else Fin (Qred (match c with Gt => r | _ => - r end))
  end.

(** [a / b] on a float64 Series with finite operands. *)
Definition div (a b : Q) : t :=
  match Qcompare b 0 with
  | Eq => match Qcompare a 0 with
          | Gt => PInf
          | Lt => NInf
          | Eq => NaN
          end
  | _ => nearest (a / b)
  end.

(** [x * k] for a positive finite constant [k]. *)
Definition scale (x : t) (k : Q) : t :=
  match x with
  | Fin q => nearest (q * k)
  | PInf => PInf
  | NInf => NInf
  | NaN => NaN
  end.

(** [a * b] with finite operands. *)
Definition mul (a b : Q) : t := nearest (a * b).

(** [x + y]. *)
Definition add (x y : t) : t :=
  match x, y with
  | NaN, _ | _, NaN => NaN
  | PInf, NInf | NInf, PInf => NaN
  | PInf, _ | _, PInf => PInf
  | NInf, _ | _, NInf => NInf
  | Fin a, Fin b => nearest (a + b)
  end.

(** [x / y]. *)
Definition quot (x y : t) : t :=
  match x, y with
  | NaN, _ | _, NaN => NaN
  | Fin a, Fin b => div a b
  | Fin _, _ => Fin 0
  | _, PInf | _, NInf => NaN
  | PInf, Fin b => match Qcompare b 0 with Lt => NInf | _ => PInf end
  | NInf, Fin b => match Qcompare b 0 with Lt => PInf | _ => NInf end
  end.

(** [x >= k] against a finite constant; every comparison with NaN is
    false. *)
Definition geb (x : t) (k : Q) : bool :=
  match x with
  | Fin q => Qle_bool k q
  | PInf => true
  | NInf => false
  | NaN => false
  end.

(** [x > k] against a finite constant. *)
Definition gtb (x : t) (k : Q) : bool :=
  match x with
  | Fin q => negb (Qle_bool q k)
  | PInf => true
  | NInf => false
  | NaN => false
  end.

Definition is_nan (x : t) : bool :=
  match x with NaN => true | _ => false end.

(** [x <= y]; false when either is NaN. *)
Definition leb (x y : t) : bool :=
  match x, y with
  | NaN, _ | _, NaN => false
  | NInf, _ | _, PInf => true
  | Fin a, Fin b => Qle_bool a b
  | _, _ => false
  end.

End PyFloat.

(** [round(x, 2)] on a numpy float64: [rint(x * 100) / 100], each step a
    float64 operation. *)
Definition round2 (x : PyFloat.t) : PyFloat.t :=
  match PyFloat.scale x 100 with
  | PyFloat.Fin y => PyFloat.div (inject_Z (rint y)) 100
  | special => special
  end.

(** Rounding to hundredths as arithmetic on the reals has it: the nearest
    multiple of 1/100 of the exact number, ties to the even one. *)
Definition round_hundredths (q : Q) : Q := rint (q * 100) # 100.

(** ** Grade table *)

Definition grade_from_percent (p : PyFloat.t) : string * Q :=
  if PyFloat.geb p 90 then ("A+", 10)
  else if PyFloat.geb p 80 then ("A", 9)
  else if PyFloat.geb p 70 then ("B+", 8)
  else if PyFloat.geb p 60 then ("B", 7)
  else if PyFloat.geb p 50 then ("C", 6)
  else if PyFloat.geb p 40 then ("D", 5)
  else ("F", 0).

(** The banded table of the specification, written as a relation between a
    real percent and the pair it is given. *)
Inductive grade_band (p : Q) : string -> Q -> Prop :=
| band_Aplus : 90 <= p -> grade_band p "A+" 10
| band_A : 80 <= p -> p < 90 -> grade_band p "A" 9
| band_Bplus : 70 <= p -> p < 80 -> grade_band p "B+" 8
| band_B : 60 <= p -> p < 70 -> grade_band p "B" 7
| band_C : 50 <= p -> p < 60 -> grade_band p "C" 6
| band_D : 40 <= p -> p < 50 -> grade_band p "D" 5
| band_F : p < 40 -> grade_band p "F" 0.

(** ** Record store *)

Record Student : Type := mkStudent
  { student_id : Z; roll : string; name : string; program : string }.

Record Subject : Type := mkSubject
  { subject_id : Z; code : string; title : string; credits : Q }.

Record Mark : Type := mkMark
  { mark_id : Z; m_student_id : Z; m_subject_id : Z;
    marks : Q; max_marks : Q }.

(** The database file: each table is the list of its rows in rowid order. *)
Record Store : Type := mkStore
  { tbl_students : list Student;
    tbl_subjects : list Subject;
    tbl_marks : list Mark }.

(** What [init_db] leaves on a new file. *)
Definition init_db : Store := mkStore [] [] [].

(** INTEGER PRIMARY KEY AUTOINCREMENT: one more than the largest rowid.  No
    operation of the program deletes a row, so the largest rowid ever used is
    the largest one present. *)
Definition next_rowid (ids : list Z) : Z := (1 + fold_right Z.max 0 ids)%Z.

(** The Streamlit call an operation ends with. *)
Inductive ui_msg : Type :=
| st_success (s : string)
| st_warning (s : string)
| st_error (s : string).

Definition roll_is (r : string) (s : Student) : bool := String.eqb (roll s) r.
Definition code_is (c : string) (s : Subject) : bool := String.eqb (code s) c.
Definition mark_of (sid subid : Z) (m : Mark) : bool :=
  Z.eqb (m_student_id m) sid && Z.eqb (m_subject_id m) subid.

(** [roll TEXT UNIQUE]: the INSERT raises IntegrityError when the roll is
    present, and the handler shows a warning; nothing is committed. *)
Definition add_student (st : Store) (r n p : string) : Store * ui_msg :=
  if existsb (roll_is r) (tbl_students st) then
    (st, st_warning "Student with this roll already exists.")
  else
    let row := mkStudent (next_rowid (map student_id (tbl_students st))) r n p in
    (mkStore (tbl_students st ++ [row]) (tbl_subjects st) (tbl_marks st),
     st_success "Student added").

Definition add_subject (st : Store) (c t : string) (cr : Q) : Store * ui_msg :=
  if existsb (code_is c) (tbl_subjects st) then
    (st, st_warning "Subject with this code already exists.")
  else
    let row := mkSubject (next_rowid (map subject_id (tbl_subjects st))) c t cr in
    (mkStore (tbl_students st) (tbl_subjects st ++ [row]) (tbl_marks st),
     st_success "Subject added").

(** UPDATE marks SET marks=?, max_marks=? WHERE mark_id=? *)
Definition update_mark (mid : Z) (mk mx : Q) (m : Mark) : Mark :=
  if Z.eqb (mark_id m) mid
  then mkMark (mark_id m) (m_student_id m) (m_subject_id m) mk mx
  else m.

Definition add_marks (st : Store) (r c : string) (mk mx : Q) : Store * ui_msg :=
  match find (roll_is r) (tbl_students st) with
  | None => (st, st_error "Student roll not found.")
  | Some s =>
    match find (code_is c) (tbl_subjects st) with
    | None => (st, st_error "Subject code not found.")
    | Some sub =>
      let sid := student_id s in
      let subid := subject_id sub in
      match find (mark_of sid subid) (tbl_marks st) with
      | Some existing =>
        (mkStore (tbl_students st) (tbl_subjects st)
           (map (update_mark (mark_id existing) mk mx) (tbl_marks st)),
         st_success "Marks saved")
      | None =>
        let row := mkMark (next_rowid (map mark_id (tbl_marks st))) sid subid mk mx in
        (mkStore (tbl_students st) (tbl_subjects st) (tbl_marks st ++ [row]),
         st_success "Marks saved")
      end
    end
  end.

(** ORDER BY on a TEXT column: byte-wise comparison, by insertion. *)
Section OrderBy.
Context {A : Type} (key : A -> string).

Fixpoint insert_by (x : A) (l : list A) : list A :=
  match l with
  | [] => [x]
  | y :: l' => if String.leb (key x) (key y) then x :: l else y :: insert_by x l'
  end.

Definition order_by (l : list A) : list A := fold_right insert_by [] l.
End OrderBy.

Definition get_all_students_df (st : Store) : list Student :=
  order_by roll (tbl_students st).

Definition get_all_subjects_df (st : Store) : list Subject :=
  order_by code (tbl_subjects st).

(** States of the store the program can be in. *)
Inductive reachable : Store -> Prop :=
| reach_init : reachable init_db
| reach_add_student st r n p :
    reachable st -> reachable (fst (add_student st r n p))
| reach_add_subject st c t cr :
    reachable st -> reachable (fst (add_subject st c t cr))
| reach_add_marks st r c mk mx :
    reachable st -> reachable (fst (add_marks st r c mk mx)).

(** ** Report engine *)

Record GradeRow : Type := mkGradeRow
  { r_student_id : Z; r_roll : string; r_name : string;
    r_code : string; r_title : string; r_credits : Q;
    r_marks : Q; r_max_marks : Q;
    r_percent : PyFloat.t; r_grade : string; r_grade_point : Q;
    r_credit_gp : PyFloat.t }.

Record Summary : Type := mkSummary
  { s_roll : string; s_name : string;
    total_credits : PyFloat.t; total_credit_gp : PyFloat.t; cgpa : PyFloat.t;
    generated_at : string }.

(** The row the report builds from one row of the join. *)
Definition grade_row (s : Student) (m : Mark) (sub : Subject) : GradeRow :=
  let percent := PyFloat.scale (PyFloat.div (marks m) (max_marks m)) 100 in
  let g := grade_from_percent percent in
  mkGradeRow (student_id s) (roll s) (name s) (code sub) (title sub) (credits sub)
    (marks m) (max_marks m) percent (fst g) (snd g)
    (PyFloat.mul (credits sub) (snd g)).

(** students JOIN marks JOIN subjects WHERE s.student_id = ? *)
Definition report_rows (st : Store) (sid : Z) : list GradeRow :=
  flat_map (fun s =>
    flat_map (fun m =>
      map (grade_row s m)
        (filter (fun sub => Z.eqb (m_subject_id m) (subject_id sub)) (tbl_subjects st)))
      (filter (fun m => Z.eqb (student_id s) (m_student_id m)) (tbl_marks st)))
    (filter (fun s => Z.eqb (student_id s) sid) (tbl_students st)).

(** [Series.sum] on a float64 column.  pandas hands the column to numpy,
    whose order of additions is its own and not the column's for long
    columns; the function is therefore taken as given, and what is proved
    of a report holds for any. *)
Class SeriesSum : Type := series_sum : list PyFloat.t -> PyFloat.t.

(** Adding the entries in turn, which is what every order comes to for
    columns of one or two entries. *)
Definition sum_in_turn : SeriesSum :=
  fun col => match col with
             | [] => PyFloat.Fin 0
             | x :: rest => fold_left PyFloat.add rest x
             end.


(** The student_id values sqlite3 can bind to the query: signed 64 bits.
    With any other integer [read_sql_query] raises OverflowError. *)
Definition sqlite_integer (z : Z) : bool :=
  ((- 2 ^ 63 <=? z) && (z <? 2 ^ 63))%Z.

(** [now] is the text of [datetime.utcnow().isoformat()].  The function is
    the call for a [sid] with [sqlite_integer sid]. *)
Definition compute_student_report {S : SeriesSum} (st : Store) (now : string) (sid : Z)
  : option (list GradeRow * Summary) :=
  match report_rows st sid with
  | [] => None
  | (first :: _) as df =>
    let tc := series_sum (map (fun row => PyFloat.Fin (r_credits row)) df) in
    let tgp := series_sum (map r_credit_gp df) in
    let c := if PyFloat.gtb tc 0 then PyFloat.quot tgp tc else PyFloat.Fin 0 in
    Some (df, mkSummary (r_roll first) (r_name first) tc tgp (round2 c)
                (now ++ "Z"))
  end.

(** The call as Python sees it, for any integer argument. *)
Inductive report_call : Type :=
| raised_OverflowError
| returned (result : option (list GradeRow * Summary)).

Definition call_compute_student_report {S : SeriesSum} (st : Store) (now : string)
    (student_id : Z) : report_call :=
  if sqlite_integer student_id
  then returned (compute_student_report st now student_id)
  else raised_OverflowError.

(** ** Class ranking (Dashboard) *)

Record RankRow : Type := mkRankRow
  { k_roll : string; k_name : string;
    k_cgpa : PyFloat.t; k_total_credits : PyFloat.t }.

Definition rank_row (summ : Summary) : RankRow :=
  mkRankRow (s_roll summ) (s_name summ) (cgpa summ) (total_credits summ).

(** The loop over [students['student_id']] that fills [out]. *)
Definition rank_rows {S : SeriesSum} (st : Store) (now : string) : list RankRow :=
  flat_map (fun sid =>
    match compute_student_report st now sid with
    | Some (_, summ) => [rank_row summ]
    | None => []
    end) (map student_id (get_all_students_df st)).

Definition cgpa_is_nan (row : RankRow) : bool := PyFloat.is_nan (k_cgpa row).

(** [sort_values(["cgpa"], ascending=False)] with the default sort kind and
    NaN position: the rows whose cgpa is a number come first, rearranged in
    descending cgpa, and the rows whose cgpa is NaN follow in the order they
    had.  The default kind is not a stable one, so nothing more is fixed
    about rows of equal cgpa. *)
Definition sort_values_cgpa_desc (l out : list RankRow) : Prop :=
  exists sorted,
    Permutation (filter (fun row => negb (cgpa_is_nan row)) l) sorted
    /\ StronglySorted (fun a b => PyFloat.leb (k_cgpa b) (k_cgpa a) = true) sorted
    /\ out = (sorted ++ filter cgpa_is_nan l)%list.

Inductive dashboard_view : Type :=
| st_dataframe (rows : list RankRow)
| st_info (s : string).

Definition dashboard_cgpa {S : SeriesSum} (st : Store) (now : string)
    (v : dashboard_view) : Prop :=
  match rank_rows st now with
  | [] => v = st_info "No marks present yet."
  | (_ :: _) as out =>
    exists sorted, sort_values_cgpa_desc out sorted /\ v = st_dataframe sorted
  end.

(** A sort that meets [sort_values_cgpa_desc]: insertion into descending
    order, after the rows of equal cgpa. *)
Fixpoint insert_desc (x : RankRow) (l : list RankRow) : list RankRow :=
  match l with
  | [] => [x]
  | y :: l' =>
    if PyFloat.leb (k_cgpa x) (k_cgpa y) then y :: insert_desc x l' else x :: l
  end.

Definition sort_desc (l : list RankRow) : list RankRow :=
  fold_right insert_desc [] (filter (fun row => negb (cgpa_is_nan row)) l)
  ++ filter cgpa_is_nan l.

(** ** Invariant and readings of the store *)

Definition pair_eqb (a b : Z * Z) : bool :=
  Z.eqb (fst a) (fst b) && Z.eqb (snd a) (snd b).

Definition mark_pair (m : Mark) : Z * Z := (m_student_id m, m_subject_id m).

(** What the schema and the write paths keep true: primary keys and UNIQUE
    columns have no repetition, a (student, subject) pair has at most one
    mark, and every mark points at rows that exist. *)
Record wf (st : Store) : Prop := mkWf
  { wf_student_ids : NoDup (map student_id (tbl_students st));
    wf_rolls : NoDup (map roll (tbl_students st));
    wf_subject_ids : NoDup (map subject_id (tbl_subjects st));
    wf_codes : NoDup (map code (tbl_subjects st));
    wf_mark_ids : NoDup (map mark_id (tbl_marks st));
    wf_pairs : NoDup (map mark_pair (tbl_marks st));
    wf_mark_student : forall m, In m (tbl_marks st) ->
      In (m_student_id m) (map student_id (tbl_students st));
    wf_mark_subject : forall m, In m (tbl_marks st) ->
      In (m_subject_id m) (map subject_id (tbl_subjects st)) }.

(** The marks of a student, and what each contributes, read off the store. *)
Definition graded_marks (st : Store) (sid : Z) : list Mark :=
  filter (fun m => Z.eqb sid (m_student_id m)) (tbl_marks st).

Definition subject_credits (st : Store) (subid : Z) : Q :=
  match find (fun sub => Z.eqb subid (subject_id sub)) (tbl_subjects st) with
  | Some sub => credits sub
  | None => 0
  end.

Definition mark_percent (m : Mark) : PyFloat.t :=
  PyFloat.scale (PyFloat.div (marks m) (max_marks m)) 100.

Definition mark_grade_point (m : Mark) : Q :=
  snd (grade_from_percent (mark_percent m)).

(** The join for one student row. *)
Definition student_rows (st : Store) (s : Student) : list GradeRow :=
  flat_map (fun m =>
    map (grade_row s m)
      (filter (fun sub => Z.eqb (m_subject_id m) (subject_id sub)) (tbl_subjects st)))
    (graded_marks st (student_id s)).

(** A mark row points at the student. *)
Definition has_marks (st : Store) (s : Student) : bool :=
  existsb (fun m => Z.eqb (student_id s) (m_student_id m)) (tbl_marks st).

(** What the ranking loop appends for one student. *)
Definition rank_of {S : SeriesSum} (st : Store) (now : string) (sid : Z) : list RankRow :=
  match compute_student_report st now sid with
  | Some (_, summ) => [rank_row summ]
  | None => []
  end.

(** ** Example stores *)

(** One student with the two marks of the CGPA example. *)
Definition example_store : Store :=
  let st1 := fst (add_student init_db "R1" "Ann" "BSc") in
  let st2 := fst (add_subject st1 "CS101" "Programming" 4) in
  let st3 := fst (add_subject st2 "CS102" "Algorithms" 3) in
  let st4 := fst (add_marks st3 "R1" "CS101" 95 100) in
  fst (add_marks st4 "R1" "CS102" 65 100).

(** The same with a second student who has no marks yet. *)
Definition example_store2 : Store :=
  fst (add_student example_store "R2" "Bob" "BSc").


(** Two students with the same marks in one subject. *)
Definition tie_store : Store :=
  let st1 := fst (add_student init_db "R1" "Ann" "BSc") in
  let st2 := fst (add_student st1 "R2" "Bob" "BSc") in
  let st3 := fst (add_subject st2 "CS101" "Programming" 4) in
  let st4 := fst (add_marks st3 "R1" "CS101" 95 100) in
  fst (add_marks st4 "R2" "CS101" 95 100).

(** ** Pages *)

(** The pages read their text through [str.strip]; it is taken as given
    ([strip]), so what is proved holds whatever it removes. *)

(** "Add Data", student form, once submitted. *)
Definition form_add_student (strip : string -> string) (st : Store)
    (r n p : string) : Store * ui_msg :=
  if String.eqb (strip r) "" || String.eqb (strip n) ""
  then (st, st_error "Fill roll and name.")
  else add_student st (strip r) (strip n) (strip p).

(** "Add Data", subject form, once submitted. *)
Definition form_add_subject (strip : string -> string) (st : Store)
    (c t : string) (cr : Q) : Store * ui_msg :=
  if String.eqb (strip c) "" || String.eqb (strip t) ""
  then (st, st_error "Fill code and title.")
  else add_subject st (strip c) (strip t) cr.

(** What a page leaves: a plain note, or the store and message of the
    operation it ran. *)
Inductive page_result : Type :=
| page_info (s : string)
| page_done (st : Store) (m : ui_msg).

Definition page_store (st : Store) (res : page_result) : Store :=
  match res with
  | page_info _ => st
  | page_done st' _ => st'
  end.

(** "Enter Marks", once submitted; [r] and [c] are the selectbox choices. *)
Definition page_enter_marks (st : Store) (r c : string) (mk mx : Q) : page_result :=
  match get_all_students_df st, get_all_subjects_df st with
  | _ :: _, _ :: _ =>
    page_done (fst (add_marks st r c mk mx)) (snd (add_marks st r c mk mx))
  | _, _ =>
    page_info "You need to add at least one student and one subject first."
  end.

(** Stores the forms can produce: the text fields go through the blank
    test, the selectboxes offer the rolls and codes of the store, and the
    number inputs have their [min_value] (credits 0, marks 0, max marks 1). *)
Inductive form_reachable (strip : string -> string) : Store -> Prop :=
| form_init : form_reachable strip init_db
| form_student st r n p :
    form_reachable strip st ->
    form_reachable strip (fst (form_add_student strip st r n p))
| form_subject st c t cr :
    form_reachable strip st -> 0 <= cr ->
    form_reachable strip (fst (form_add_subject strip st c t cr))
| form_marks st r c mk mx :
    form_reachable strip st ->
    In r (map roll (get_all_students_df st)) ->
    In c (map code (get_all_subjects_df st)) ->
    0 <= mk -> 1 <= mx ->
    form_reachable strip (page_store st (page_enter_marks st r c mk mx)).

(** What the forms keep true of the rows. *)
Record form_wf (st : Store) : Prop := mkFormWf
  { fw_students : forall s, In s (tbl_students st) -> roll s <> "" /\ name s <> "";
    fw_subjects : forall sub, In sub (tbl_subjects st) ->
      code sub <> "" /\ title sub <> "" /\ 0 <= credits sub;
    fw_marks : forall m, In m (tbl_marks st) -> 0 <= marks m /\ 1 <= max_marks m }.

(** "Student Report": the columns of [display_df]. *)
Record DisplayRow : Type := mkDisplayRow
  { d_code : string; d_title : string; d_credits : Q;
    d_marks : Q; d_max_marks : Q;
    d_percent : PyFloat.t; d_grade : string; d_grade_point : Q }.

Definition display_row (row : GradeRow) : DisplayRow :=
  mkDisplayRow (r_code row) (r_title row) (r_credits row) (r_marks row)
    (r_max_marks row) (r_percent row) (r_grade row) (r_grade_point row).

Inductive report_view : Type :=
| rv_info (s : string)
| rv_warning (s : string)
| rv_report (subheader : string) (metric : PyFloat.t) (display_df : list DisplayRow)
    (csv_name : string)
| rv_index_error.

(** "Student Report" for the roll chosen in the selectbox. *)
Definition page_student_report {S : SeriesSum} (st : Store) (now : string)
    (roll_selected : string) : report_view :=
  match get_all_students_df st with
  | [] => rv_info "No students yet."
  | (_ :: _) as students =>
    match filter (fun s => String.eqb (roll s) roll_selected) students with
    | [] => rv_index_error
    | s :: _ =>
      match compute_student_report st now (student_id s) with
      | None => rv_warning "No marks recorded for this student yet."
      | Some (df, summary) =>
        rv_report (s_name summary ++ " — " ++ s_roll summary) (cgpa summary)
          (map display_row df) ("report_" ++ s_roll summary ++ ".csv")
      end
    end
  end.

(** "Export": the marks sheet before ORDER BY. *)
Record ExportRow : Type := mkExportRow
  { e_roll : string; e_name : string;
    e_subject_code : string; e_subject_title : string; e_credits : Q;
    e_marks : Q; e_max_marks : Q }.

Definition export_row (m : Mark) (s : Student) (sub : Subject) : ExportRow :=
  mkExportRow (roll s) (name s) (code sub) (title sub) (credits sub)
    (marks m) (max_marks m).

(** marks JOIN students JOIN subjects *)
Definition export_join (st : Store) : list ExportRow :=
  flat_map (fun m =>
    flat_map (fun s =>
      map (export_row m s)
        (filter (fun sub => Z.eqb (m_subject_id m) (subject_id sub)) (tbl_subjects st)))
      (filter (fun s => Z.eqb (m_student_id m) (student_id s)) (tbl_students st)))
    (tbl_marks st).

(** ORDER BY s.roll: the joined rows in ascending roll; SQL fixes nothing
    about rows of the same roll. *)
Definition export_marks_df (st : Store) (out : list ExportRow) : Prop :=
  Permutation (export_join st) out
  /\ Sorted (fun a b => String.leb (e_roll a) (e_roll b) = true) out.

(** A store made through the forms, from text that has nothing to strip. *)
Definition no_strip (s : string) : string := s.

Definition form_example : Store :=
  let st1 := fst (form_add_student no_strip init_db "R1" "Ann" "BSc") in
  let st2 := fst (form_add_subject no_strip st1 "CS101" "Programming" 4) in
  page_store st2 (page_enter_marks st2 "R1" "CS101" 95 100).

(** * Properties *)

(** ** Grade table *)

Lemma geb_Fin_true (p k : Q) : PyFloat.geb (PyFloat.Fin p) k = true <-> k <= p.
Proof. apply Qle_bool_iff. Qed.

Lemma geb_Fin_false (p k : Q) : PyFloat.geb (PyFloat.Fin p) k = false <-> p < k.
Proof.
  simpl. split; intros H.
  - apply Qnot_le_lt. intros Hle. apply Qle_bool_iff in Hle. congruence.
  - destruct (Qle_bool k p) eqn:E; [|reflexivity].
    apply Qle_bool_iff in E. lra.
Qed.

(** Splits the goal along the six threshold tests made on [p]. *)
Ltac split_bands p :=
  unfold grade_from_percent;
  repeat match goal with
  | |- context [PyFloat.geb (PyFloat.Fin p) ?k] =>
    let E := fresh "E" in
    destruct (PyFloat.geb (PyFloat.Fin p) k) eqn:E;
    [apply geb_Fin_true in E | apply geb_Fin_false in E]
  end.

Lemma grade_band_sound (p : Q) :
  grade_band p (fst (grade_from_percent (PyFloat.Fin p)))
               (snd (grade_from_percent (PyFloat.Fin p))).
Proof. split_bands p; cbn [fst snd]; constructor; assumption. Qed.

Lemma grade_band_complete (p : Q) (l : string) (g : Q) :
  grade_band p l g -> grade_from_percent (PyFloat.Fin p) = (l, g).
Proof.
  intros H; inversion H; subst; split_bands p; try reflexivity; lra.
Qed.

(** The specials: +inf is in the top band, -inf and NaN fall through. *)
Lemma grade_from_percent_specials :
  grade_from_percent PyFloat.PInf = ("A+", 10) /\
  grade_from_percent PyFloat.NInf = ("F", 0) /\
  grade_from_percent PyFloat.NaN = ("F", 0).
Proof. repeat split. Qed.

(** C2. [grade_from_percent] is a total function of a real percent, and the
    pair it returns is exactly the one the banded table gives: the pair is in
    the band relation with [p], and it is the only pair that is.  Thresholds
    belong to the higher band: 90 is an A+, 89.999 an A. *)
Theorem grade_from_percent_banded (p : Q) :
  grade_band p (fst (grade_from_percent (PyFloat.Fin p)))
               (snd (grade_from_percent (PyFloat.Fin p)))
  /\ (forall l g, grade_band p l g -> grade_from_percent (PyFloat.Fin p) = (l, g))
  /\ grade_from_percent (PyFloat.Fin 90) = ("A+", 10)
  /\ grade_from_percent (PyFloat.Fin 89.999) = ("A", 9)
  /\ grade_from_percent (PyFloat.Fin 40) = ("D", 5)
  /\ grade_from_percent (PyFloat.Fin 39.999) = ("F", 0).
Proof.
  split; [apply grade_band_sound|].
  split; [intros l g; apply grade_band_complete|].
  repeat split.
Qed.

(** C9. The grade point is monotone in the percent. *)
Theorem grade_point_monotone (p1 p2 : Q) :
  p1 <= p2 ->
  snd (grade_from_percent (PyFloat.Fin p1)) <= snd (grade_from_percent (PyFloat.Fin p2)).
Proof.
  intros Hle. split_bands p1; split_bands p2; cbn [snd]; lra.
Qed.

Lemma grade_point_monotone_witness :
  89.999 <= 90 /\
  snd (grade_from_percent (PyFloat.Fin 89.999)) <= snd (grade_from_percent (PyFloat.Fin 90)).
Proof.
  assert (H : 89.999 <= 90) by (unfold Qle; simpl; lia).
  split; [exact H | exact (grade_point_monotone 89.999 90 H)].
Defined.

(** ** Tables with a unique column *)

Section Keyed.
Context {A K : Type} (key : A -> K) (eqb : K -> K -> bool).
Hypothesis eqb_eq : forall a b, eqb a b = true <-> a = b.

Lemma eqb_key_false (a b : K) : a <> b -> eqb a b = false.
Proof.
  intros Hne. destruct (eqb a b) eqn:E; [|reflexivity].
  apply eqb_eq in E. contradiction.
Qed.

Lemma filter_key_absent (l : list A) (k : K) :
  ~ In k (map key l) -> filter (fun y => eqb (key y) k) l = [].
Proof.
  induction l as [|y l IH]; simpl; intros Hn; [reflexivity|].
  rewrite eqb_key_false by (intros E; apply Hn; left; exact E).
  apply IH. intros Hin. apply Hn. right. exact Hin.
Qed.

Lemma filter_key_unique (l : list A) (x : A) :
  NoDup (map key l) -> In x l -> filter (fun y => eqb (key y) (key x)) l = [x].
Proof.
  induction l as [|y l IH]; simpl; intros Hnd Hin; [contradiction|].
  apply NoDup_cons_iff in Hnd as [Hy Hnd].
  destruct Hin as [->|Hin].
  - rewrite (proj2 (eqb_eq _ _) eq_refl).
    rewrite filter_key_absent by exact Hy. reflexivity.
  - rewrite eqb_key_false; [apply IH; assumption|].
    intros E. apply Hy. rewrite E. apply in_map. exact Hin.
Qed.

Lemma existsb_key (l : list A) (k : K) :
  existsb (fun y => eqb (key y) k) l = true <-> In k (map key l).
Proof.
  rewrite existsb_exists, in_map_iff. split.
  - intros [x [Hin E]]. exists x. split; [apply eqb_eq; exact E | exact Hin].
  - intros [x [E Hin]]. exists x. split; [exact Hin | apply eqb_eq; exact E].
Qed.

Lemma find_key_some (l : list A) (k : K) :
  In k (map key l) ->
  exists x, find (fun y => eqb (key y) k) l = Some x /\ In x l /\ key x = k.
Proof.
  intros Hin.
  destruct (find (fun y => eqb (key y) k) l) as [x|] eqn:E.
  - apply find_some in E as [Hx Hk]. apply eqb_eq in Hk. eauto.
  - apply in_map_iff in Hin as [x [Hk Hx]].
    apply (find_none _ _ E) in Hx. simpl in Hx.
    rewrite (proj2 (eqb_eq _ _) Hk) in Hx. discriminate.
Qed.

Lemma find_key_none (l : list A) (k : K) :
  ~ In k (map key l) -> find (fun y => eqb (key y) k) l = None.
Proof.
  intros Hn. destruct (find (fun y => eqb (key y) k) l) as [x|] eqn:E;
    [|reflexivity].
  apply find_some in E as [Hx Hk]. apply eqb_eq in Hk.
  exfalso. apply Hn. rewrite <- Hk. apply in_map. exact Hx.
Qed.
(** Selecting rows keeps the column free of repetition. *)
Lemma filter_key_NoDup (p : A -> bool) (rows : list A) :
  NoDup (map key rows) -> NoDup (map key (filter p rows)).
Proof.
  intros Hnd. induction rows as [|x rows IH]; simpl in *; [constructor|].
  apply NoDup_cons_iff in Hnd as [Hx Hnd].
  destruct (p x); simpl; [|apply IH, Hnd].
  constructor; [|apply IH, Hnd].
  intros Hin. apply Hx. apply in_map_iff in Hin as [y [E Hy]].
  apply filter_In in Hy as [Hy _]. rewrite <- E. apply in_map. exact Hy.
Qed.

End Keyed.

Lemma find_filter {A : Type} (p : A -> bool) (l : list A) :
  find p l = hd_error (filter p l).
Proof.
  induction l as [|x l IH]; simpl; [reflexivity|].
  destruct (p x); [reflexivity | exact IH].
Qed.

Lemma NoDup_snoc {A : Type} (l : list A) (x : A) :
  NoDup l -> ~ In x l -> NoDup (l ++ [x]).
Proof.
  intros Hnd Hx. apply NoDup_app; [exact Hnd | repeat constructor; intros [] |].
  intros a Ha [<-|[]]. contradiction.
Qed.

Lemma rowid_le_max (ids : list Z) (x : Z) :
  In x ids -> (x <= fold_right Z.max 0 ids)%Z.
Proof.
  induction ids as [|y ids IH]; simpl; [contradiction|].
  intros [->|Hin]; [lia | specialize (IH Hin); lia].
Qed.

Lemma next_rowid_fresh (ids : list Z) : ~ In (next_rowid ids) ids.
Proof.
  intros Hin. apply rowid_le_max in Hin. unfold next_rowid in Hin. lia.
Qed.

Lemma pair_eqb_eq (a b : Z * Z) : pair_eqb a b = true <-> a = b.
Proof.
  destruct a as [a1 a2], b as [b1 b2]. unfold pair_eqb; simpl.
  rewrite andb_true_iff, !Z.eqb_eq. split; [intros [-> ->]; reflexivity|].
  intros E; inversion E; auto.
Qed.

Lemma mark_of_pair (sid subid : Z) (m : Mark) :
  mark_of sid subid m = pair_eqb (mark_pair m) (sid, subid).
Proof. reflexivity. Qed.

(** ** The store invariant *)

Lemma wf_init : wf init_db.
Proof. split; simpl; try constructor; intros m []. Qed.

Lemma roll_is_key (r : string) (l : list Student) :
  existsb (roll_is r) l = true <-> In r (map roll l).
Proof. apply (existsb_key roll String.eqb String.eqb_eq). Qed.

Lemma code_is_key (c : string) (l : list Subject) :
  existsb (code_is c) l = true <-> In c (map code l).
Proof. apply (existsb_key code String.eqb String.eqb_eq). Qed.

Lemma wf_add_student (st : Store) (r n p : string) :
  wf st -> wf (fst (add_student st r n p)).
Proof.
  intros [H1 H2 H3 H4 H5 H6 H7 H8]. unfold add_student.
  destruct (existsb (roll_is r) (tbl_students st)) eqn:E; simpl.
  - split; assumption.
  - split; simpl; try assumption.
    + rewrite map_app. apply NoDup_snoc; [exact H1 | apply next_rowid_fresh].
    + rewrite map_app. apply NoDup_snoc; [exact H2|].
      intros Hin. apply (proj2 (roll_is_key r _)) in Hin. congruence.
    + intros m Hm. rewrite map_app. apply in_or_app. left. apply H7, Hm.
Qed.

Lemma wf_add_subject (st : Store) (c t : string) (cr : Q) :
  wf st -> wf (fst (add_subject st c t cr)).
Proof.
  intros [H1 H2 H3 H4 H5 H6 H7 H8]. unfold add_subject.
  destruct (existsb (code_is c) (tbl_subjects st)) eqn:E; simpl.
  - split; assumption.
  - split; simpl; try assumption.
    + rewrite map_app. apply NoDup_snoc; [exact H3 | apply next_rowid_fresh].
    + rewrite map_app. apply NoDup_snoc; [exact H4|].
      intros Hin. apply (proj2 (code_is_key c _)) in Hin. congruence.
    + intros m Hm. rewrite map_app. apply in_or_app. left. apply H8, Hm.
Qed.

Lemma update_mark_keys (mid : Z) (mk mx : Q) (m : Mark) :
  mark_id (update_mark mid mk mx m) = mark_id m /\
  m_student_id (update_mark mid mk mx m) = m_student_id m /\
  m_subject_id (update_mark mid mk mx m) = m_subject_id m.
Proof. unfold update_mark. destruct (Z.eqb (mark_id m) mid); auto. Qed.

Lemma map_update_mark_ids (mid : Z) (mk mx : Q) (l : list Mark) :
  map mark_id (map (update_mark mid mk mx) l) = map mark_id l.
Proof.
  rewrite map_map. apply map_ext. intros m. apply update_mark_keys.
Qed.

Lemma map_update_mark_pairs (mid : Z) (mk mx : Q) (l : list Mark) :
  map mark_pair (map (update_mark mid mk mx) l) = map mark_pair l.
Proof.
  rewrite map_map. apply map_ext. intros m. unfold mark_pair.
  destruct (update_mark_keys mid mk mx m) as [_ [-> ->]]. reflexivity.
Qed.

Lemma wf_add_marks (st : Store) (r c : string) (mk mx : Q) :
  wf st -> wf (fst (add_marks st r c mk mx)).
Proof.
  intros Hwf. pose proof Hwf as [H1 H2 H3 H4 H5 H6 H7 H8]. unfold add_marks.
  destruct (find (roll_is r) (tbl_students st)) as [s|] eqn:Es; [|exact Hwf].
  destruct (find (code_is c) (tbl_subjects st)) as [sub|] eqn:Ec; [|exact Hwf].
  apply find_some in Es as [Hs _]. apply find_some in Ec as [Hsub _].
  cbv zeta.
  destruct (find (mark_of (student_id s) (subject_id sub)) (tbl_marks st))
    as [ex|] eqn:Em; simpl.
  - split; simpl; try assumption.
    + rewrite map_update_mark_ids. exact H5.
    + rewrite map_update_mark_pairs. exact H6.
    + intros m Hm. apply in_map_iff in Hm as [m0 [<- Hm0]].
      destruct (update_mark_keys (mark_id ex) mk mx m0) as [_ [-> _]]. auto.
    + intros m Hm. apply in_map_iff in Hm as [m0 [<- Hm0]].
      destruct (update_mark_keys (mark_id ex) mk mx m0) as [_ [_ ->]]. auto.
  - split; simpl; try assumption.
    + rewrite map_app. apply NoDup_snoc; [exact H5 | apply next_rowid_fresh].
    + rewrite map_app. apply NoDup_snoc; [exact H6|].
      intros Hin. apply in_map_iff in Hin as [m [Hp Hm]].
      apply (find_none _ _ Em) in Hm. rewrite mark_of_pair in Hm.
      change (mark_pair m = (student_id s, subject_id sub)) in Hp.
      apply (proj2 (pair_eqb_eq _ _)) in Hp. congruence.
    + intros m Hm. apply in_app_or in Hm as [Hm|[<-|[]]]; [auto|].
      simpl. apply in_map. exact Hs.
    + intros m Hm. apply in_app_or in Hm as [Hm|[<-|[]]]; [auto|].
      simpl. apply in_map. exact Hsub.
Qed.

Lemma reachable_wf (st : Store) : reachable st -> wf st.
Proof.
  induction 1;
    auto using wf_init, wf_add_student, wf_add_subject, wf_add_marks.
Qed.

Lemma NoDup_key_inj {A K : Type} (key : A -> K) (l : list A) (x y : A) :
  NoDup (map key l) -> In x l -> In y l -> key x = key y -> x = y.
Proof.
  induction l as [|z l IH]; simpl; intros Hnd Hx Hy E; [contradiction|].
  apply NoDup_cons_iff in Hnd as [Hz Hnd].
  destruct Hx as [->|Hx], Hy as [->|Hy]; auto.
  - exfalso. apply Hz. rewrite E. apply in_map. exact Hy.
  - exfalso. apply Hz. rewrite <- E. apply in_map. exact Hx.
Qed.

Lemma map_fixed {A : Type} (f : A -> A) (l : list A) :
  (forall x, In x l -> f x = x) -> map f l = l.
Proof.
  intros H. rewrite <- (map_id l) at 2. apply map_ext_in. exact H.
Qed.

Lemma find_none_filter {A : Type} (p : A -> bool) (l : list A) :
  find p l = None -> filter p l = [].
Proof.
  rewrite find_filter. destruct (filter p l); [reflexivity | discriminate].
Qed.

(** ** Resolving rolls and codes *)

Lemma resolve_roll (st : Store) (r : string) :
  In r (map roll (tbl_students st)) ->
  exists s, find (roll_is r) (tbl_students st) = Some s /\
            In s (tbl_students st) /\ roll s = r.
Proof. apply (find_key_some roll String.eqb String.eqb_eq). Qed.

Lemma resolve_code (st : Store) (c : string) :
  In c (map code (tbl_subjects st)) ->
  exists sub, find (code_is c) (tbl_subjects st) = Some sub /\
              In sub (tbl_subjects st) /\ code sub = c.
Proof. apply (find_key_some code String.eqb String.eqb_eq). Qed.

Lemma filter_roll_unique (st : Store) (s : Student) :
  wf st -> In s (tbl_students st) ->
  filter (roll_is (roll s)) (tbl_students st) = [s].
Proof.
  intros Hwf Hin.
  exact (filter_key_unique roll String.eqb String.eqb_eq _ _ (wf_rolls _ Hwf) Hin).
Qed.

Lemma filter_code_unique (st : Store) (sub : Subject) :
  wf st -> In sub (tbl_subjects st) ->
  filter (code_is (code sub)) (tbl_subjects st) = [sub].
Proof.
  intros Hwf Hin.
  exact (filter_key_unique code String.eqb String.eqb_eq _ _ (wf_codes _ Hwf) Hin).
Qed.

Lemma filter_pair_unique (st : Store) (m : Mark) :
  wf st -> In m (tbl_marks st) ->
  filter (mark_of (m_student_id m) (m_subject_id m)) (tbl_marks st) = [m].
Proof.
  intros Hwf Hin.
  exact (filter_key_unique mark_pair pair_eqb pair_eqb_eq _ _ (wf_pairs _ Hwf) Hin).
Qed.

Lemma mark_of_true (sid subid : Z) (m : Mark) :
  mark_of sid subid m = true <-> m_student_id m = sid /\ m_subject_id m = subid.
Proof. unfold mark_of. rewrite andb_true_iff, !Z.eqb_eq. reflexivity. Qed.

(** ** add_marks *)

(** The row of the pair after a call whose roll and code resolve. *)
Lemma add_marks_row (st : Store) (r c : string) (mk mx : Q) (s : Student) (sub : Subject) :
  wf st ->
  find (roll_is r) (tbl_students st) = Some s ->
  find (code_is c) (tbl_subjects st) = Some sub ->
  exists m,
    filter (mark_of (student_id s) (subject_id sub))
           (tbl_marks (fst (add_marks st r c mk mx))) = [m]
    /\ marks m = mk /\ max_marks m = mx
    /\ tbl_students (fst (add_marks st r c mk mx)) = tbl_students st
    /\ tbl_subjects (fst (add_marks st r c mk mx)) = tbl_subjects st
    /\ snd (add_marks st r c mk mx) = st_success "Marks saved".
Proof.
  intros Hwf Es Ec. unfold add_marks. rewrite Es, Ec. cbv zeta.
  destruct (find (mark_of (student_id s) (subject_id sub)) (tbl_marks st))
    as [ex|] eqn:Em; simpl.
  - apply find_some in Em as [Hex Hp]. apply mark_of_true in Hp as [Hp1 Hp2].
    exists (mkMark (mark_id ex) (m_student_id ex) (m_subject_id ex) mk mx).
    repeat split; try reflexivity.
    rewrite filter_map_swap.
    rewrite (filter_ext _ (mark_of (student_id s) (subject_id sub))).
    + rewrite <- Hp1, <- Hp2, (filter_pair_unique st ex Hwf Hex). simpl.
      unfold update_mark. rewrite Z.eqb_refl. reflexivity.
    + intros m. unfold mark_of.
      destruct (update_mark_keys (mark_id ex) mk mx m) as [_ [-> ->]].
      reflexivity.
  - exists (mkMark (next_rowid (map mark_id (tbl_marks st)))
                   (student_id s) (subject_id sub) mk mx).
    repeat split; try reflexivity.
    rewrite filter_app, (find_none_filter _ _ Em). simpl.
    unfold mark_of; simpl. rewrite !Z.eqb_refl. reflexivity.
Qed.

(** Saving the values that are already stored changes nothing. *)
Lemma add_marks_same_values (st : Store) (r c : string) (s : Student) (sub : Subject) (m : Mark) :
  wf st ->
  find (roll_is r) (tbl_students st) = Some s ->
  find (code_is c) (tbl_subjects st) = Some sub ->
  find (mark_of (student_id s) (subject_id sub)) (tbl_marks st) = Some m ->
  fst (add_marks st r c (marks m) (max_marks m)) = st.
Proof.
  intros Hwf Es Ec Em. unfold add_marks. rewrite Es, Ec. cbv zeta.
  rewrite Em. simpl. apply find_some in Em as [Hm _].
  rewrite map_fixed; [destruct st; reflexivity|].
  intros x Hx. unfold update_mark.
  destruct (Z.eqb (mark_id x) (mark_id m)) eqn:E; [|reflexivity].
  apply Z.eqb_eq in E.
  apply (NoDup_key_inj mark_id _ x m (wf_mark_ids _ Hwf) Hx Hm) in E.
  subst x. destruct m; reflexivity.
Qed.

(** C3. In a store the program can reach, when the roll and the code both
    resolve, the store after [add_marks] holds exactly one mark row for the
    (student, subject) pair, and that row carries the marks and max_marks
    just supplied.  A second call with the same arguments leaves the store as
    the first call left it, so the pair still has exactly that one row.  The
    marks table has no UNIQUE constraint on the pair; the property holds
    because [add_marks] is the only writer of the table. *)
Theorem add_marks_upsert (st : Store) (r c : string) (mk mx : Q) :
  reachable st ->
  In r (map roll (tbl_students st)) ->
  In c (map code (tbl_subjects st)) ->
  exists s sub m,
    In s (tbl_students st) /\ roll s = r /\
    In sub (tbl_subjects st) /\ code sub = c /\
    filter (mark_of (student_id s) (subject_id sub))
           (tbl_marks (fst (add_marks st r c mk mx))) = [m] /\
    marks m = mk /\ max_marks m = mx /\
    fst (add_marks (fst (add_marks st r c mk mx)) r c mk mx)
      = fst (add_marks st r c mk mx) /\
    filter (mark_of (student_id s) (subject_id sub))
           (tbl_marks (fst (add_marks (fst (add_marks st r c mk mx)) r c mk mx)))
      = [m].
Proof.
  intros Hreach Hr Hc. apply reachable_wf in Hreach as Hwf.
  destruct (resolve_roll st r Hr) as [s [Es [Hs Hrs]]].
  destruct (resolve_code st c Hc) as [sub [Ec [Hsub Hcs]]].
  destruct (add_marks_row st r c mk mx s sub Hwf Es Ec)
    as [m [Hf [Hmk [Hmx [Hst [Hsu _]]]]]].
  exists s, sub, m. subst mk mx.
  assert (Hidem : fst (add_marks (fst (add_marks st r c (marks m) (max_marks m)))
                         r c (marks m) (max_marks m))
                  = fst (add_marks st r c (marks m) (max_marks m))).
  { apply (add_marks_same_values _ r c s sub m).
    - apply wf_add_marks, Hwf.
    - rewrite Hst. exact Es.
    - rewrite Hsu. exact Ec.
    - rewrite find_filter, Hf. reflexivity. }
  repeat split; try assumption.
  rewrite Hidem. exact Hf.
Qed.

(** ** The example stores are reachable *)

Lemma example_store_reachable : reachable example_store.
Proof. unfold example_store. repeat constructor. Qed.

Lemma example_store2_reachable : reachable example_store2.
Proof. unfold example_store2. constructor. apply example_store_reachable. Qed.

Lemma tie_store_reachable : reachable tie_store.
Proof. unfold tie_store. repeat constructor. Qed.

Lemma add_marks_upsert_witness :
  reachable example_store /\
  exists m,
    filter (mark_of 1 2) (tbl_marks (fst (add_marks example_store "R1" "CS102" 70 100))) = [m]
    /\ marks m = 70 /\ max_marks m = 100.
Proof.
  split; [exact example_store_reachable|].
  destruct (add_marks_upsert example_store "R1" "CS102" 70 100
              example_store_reachable)
    as [s [sub [m [Hs [Hr [Hsub [Hc [Hf [Hmk [Hmx _]]]]]]]]]].
  - simpl. auto.
  - simpl. auto.
  - exists m. split; [|split; assumption].
    assert (Es : s = mkStudent 1 "R1" "Ann" "BSc").
    { simpl in Hs. destruct Hs as [<-|[]]. reflexivity. }
    assert (Esub : sub = mkSubject 2 "CS102" "Algorithms" 3).
    { simpl in Hsub. destruct Hsub as [<-|[<-|[]]]; [discriminate Hc | reflexivity]. }
    subst s sub. exact Hf.
Defined.

(** A marks table written by something else, with two rows for one pair:
    the UPDATE reaches only the row found first. *)
Lemma add_marks_foreign_duplicates :
  let st := mkStore [mkStudent 1 "R1" "Ann" "BSc"]
                    [mkSubject 1 "CS101" "Programming" 4]
                    [mkMark 1 1 1 40 100; mkMark 2 1 1 50 100] in
  tbl_marks (fst (add_marks st "R1" "CS101" 95 100))
  = [mkMark 1 1 1 95 100; mkMark 2 1 1 50 100].
Proof. reflexivity. Qed.

(** ** add_student and add_subject *)

Lemma filter_roll_absent (l : list Student) (r : string) :
  ~ In r (map roll l) -> filter (roll_is r) l = [].
Proof. exact (filter_key_absent roll String.eqb String.eqb_eq l r). Qed.

Lemma filter_code_absent (l : list Subject) (c : string) :
  ~ In c (map code l) -> filter (code_is c) l = [].
Proof. exact (filter_key_absent code String.eqb String.eqb_eq l c). Qed.

Lemma add_student_present (st : Store) (r n p : string) :
  In r (map roll (tbl_students st)) ->
  add_student st r n p = (st, st_warning "Student with this roll already exists.").
Proof.
  intros Hin. unfold add_student. rewrite (proj2 (roll_is_key r _) Hin).
  reflexivity.
Qed.

Lemma add_student_absent (st : Store) (r n p : string) :
  ~ In r (map roll (tbl_students st)) ->
  add_student st r n p
  = (mkStore (tbl_students st
                ++ [mkStudent (next_rowid (map student_id (tbl_students st))) r n p])
             (tbl_subjects st) (tbl_marks st),
     st_success "Student added").
Proof.
  intros Hn. unfold add_student.
  destruct (existsb (roll_is r) (tbl_students st)) eqn:E; [|reflexivity].
  apply roll_is_key in E. contradiction.
Qed.

Lemma add_subject_present (st : Store) (c t : string) (cr : Q) :
  In c (map code (tbl_subjects st)) ->
  add_subject st c t cr = (st, st_warning "Subject with this code already exists.").
Proof.
  intros Hin. unfold add_subject. rewrite (proj2 (code_is_key c _) Hin).
  reflexivity.
Qed.

Lemma add_subject_absent (st : Store) (c t : string) (cr : Q) :
  ~ In c (map code (tbl_subjects st)) ->
  add_subject st c t cr
  = (mkStore (tbl_students st)
             (tbl_subjects st
                ++ [mkSubject (next_rowid (map subject_id (tbl_subjects st))) c t cr])
             (tbl_marks st),
     st_success "Subject added").
Proof.
  intros Hn. unfold add_subject.
  destruct (existsb (code_is c) (tbl_subjects st)) eqn:E; [|reflexivity].
  apply code_is_key in E. contradiction.
Qed.

(** C7. In a store the program can reach: adding a roll that exists shows the
    duplicate warning and returns the store as it was, in which exactly one
    row has that roll, a row that was already there (so with its name);
    adding a roll that does not exist appends one row with the given roll,
    name and program under an identifier no student row has, and adding the
    same roll again with another name leaves that row the only one with the
    roll.  The same holds for subjects and their codes. *)
Theorem add_rejects_duplicates (st : Store) :
  reachable st ->
  (forall r n p,
      In r (map roll (tbl_students st)) ->
      add_student st r n p
        = (st, st_warning "Student with this roll already exists.")
      /\ exists s, In s (tbl_students st)
           /\ filter (roll_is r) (tbl_students (fst (add_student st r n p))) = [s])
  /\ (forall r n p,
      ~ In r (map roll (tbl_students st)) ->
      exists row,
        add_student st r n p
          = (mkStore (tbl_students st ++ [row]) (tbl_subjects st) (tbl_marks st),
             st_success "Student added")
        /\ roll row = r /\ name row = n /\ program row = p
        /\ ~ In (student_id row) (map student_id (tbl_students st))
        /\ forall n' p',
             filter (roll_is r)
               (tbl_students (fst (add_student (fst (add_student st r n p)) r n' p')))
             = [row])
  /\ (forall c t cr,
      In c (map code (tbl_subjects st)) ->
      add_subject st c t cr
        = (st, st_warning "Subject with this code already exists.")
      /\ exists sub, In sub (tbl_subjects st)
           /\ filter (code_is c) (tbl_subjects (fst (add_subject st c t cr))) = [sub])
  /\ (forall c t cr,
      ~ In c (map code (tbl_subjects st)) ->
      exists row,
        add_subject st c t cr
          = (mkStore (tbl_students st) (tbl_subjects st ++ [row]) (tbl_marks st),
             st_success "Subject added")
        /\ code row = c /\ title row = t /\ credits row = cr
        /\ ~ In (subject_id row) (map subject_id (tbl_subjects st))
        /\ forall t' cr',
             filter (code_is c)
               (tbl_subjects (fst (add_subject (fst (add_subject st c t cr)) c t' cr')))
             = [row]).
Proof.
  intros Hreach. apply reachable_wf in Hreach as Hwf.
  split; [|split; [|split]].
  - intros r n p Hin. rewrite (add_student_present st r n p Hin).
    split; [reflexivity|].
    destruct (resolve_roll st r Hin) as [s [_ [Hs <-]]].
    exists s. split; [exact Hs | apply filter_roll_unique; assumption].
  - intros r n p Hn. rewrite (add_student_absent st r n p Hn).
    eexists. split; [reflexivity|].
    cbn [roll name program student_id fst].
    repeat split; [apply next_rowid_fresh|].
    intros n' p'. rewrite add_student_present.
    + cbn [fst tbl_students]. rewrite filter_app.
      rewrite (filter_roll_absent _ _ Hn).
      cbn. rewrite String.eqb_refl. reflexivity.
    + cbn [tbl_students]. rewrite map_app. apply in_or_app. right. left.
      reflexivity.
  - intros c t cr Hin. rewrite (add_subject_present st c t cr Hin).
    split; [reflexivity|].
    destruct (resolve_code st c Hin) as [sub [_ [Hs <-]]].
    exists sub. split; [exact Hs | apply filter_code_unique; assumption].
  - intros c t cr Hn. rewrite (add_subject_absent st c t cr Hn).
    eexists. split; [reflexivity|].
    cbn [code title credits subject_id fst].
    repeat split; [apply next_rowid_fresh|].
    intros t' cr'. rewrite add_subject_present.
    + cbn [fst tbl_subjects]. rewrite filter_app.
      rewrite (filter_code_absent _ _ Hn).
      cbn. rewrite String.eqb_refl. reflexivity.
    + cbn [tbl_subjects]. rewrite map_app. apply in_or_app. right. left.
      reflexivity.
Qed.

Lemma add_rejects_duplicates_witness :
  reachable example_store /\
  add_student example_store "R1" "Eve" "MSc"
    = (example_store, st_warning "Student with this roll already exists.") /\
  add_subject example_store "CS101" "Logic" 2
    = (example_store, st_warning "Subject with this code already exists.") /\
  exists row,
    tbl_students (fst (add_student example_store "R7" "Eve" "MSc"))
      = (tbl_students example_store ++ [row])%list
    /\ name row = "Eve".
Proof.
  destruct (add_rejects_duplicates example_store example_store_reachable)
    as [Hdup [Hnew [Hdup' _]]].
  split; [exact example_store_reachable|].
  split; [|split].
  - apply Hdup. simpl. auto.
  - apply Hdup'. simpl. auto.
  - destruct (Hnew "R7" "Eve" "MSc") as [row [E [_ [Hn _]]]].
    + simpl. intros [H|[]]. discriminate H.
    + exists row. rewrite E. split; [reflexivity | exact Hn].
Defined.

(** C8. When the roll or the code does not resolve, [add_marks] shows the
    matching error and returns the store exactly as it was; the marks table in
    particular is the same.  The roll is looked up first. *)
Theorem add_marks_not_found (st : Store) (r c : string) (mk mx : Q) :
  ~ In r (map roll (tbl_students st)) \/ ~ In c (map code (tbl_subjects st)) ->
  fst (add_marks st r c mk mx) = st
  /\ tbl_marks (fst (add_marks st r c mk mx)) = tbl_marks st
  /\ (~ In r (map roll (tbl_students st)) ->
      snd (add_marks st r c mk mx) = st_error "Student roll not found.")
  /\ (In r (map roll (tbl_students st)) ->
      snd (add_marks st r c mk mx) = st_error "Subject code not found.").
Proof.
  intros H. unfold add_marks.
  destruct (find (roll_is r) (tbl_students st)) as [s|] eqn:Es.
  - assert (Hr : In r (map roll (tbl_students st))).
    { apply find_some in Es as [Hs E]. apply String.eqb_eq in E.
      rewrite <- E. apply in_map. exact Hs. }
    destruct H as [H|H]; [contradiction|].
    rewrite (find_key_none code String.eqb String.eqb_eq _ _ H
             : find (code_is c) (tbl_subjects st) = None).
    repeat split. intros Hn. contradiction.
  - repeat split. intros Hr.
    destruct (resolve_roll st r Hr) as [s [E _]]. congruence.
Qed.

Lemma add_marks_not_found_witness :
  fst (add_marks example_store "R9" "CS101" 50 100) = example_store /\
  snd (add_marks example_store "R9" "CS101" 50 100) = st_error "Student roll not found." /\
  fst (add_marks example_store "R1" "CS999" 50 100) = example_store /\
  snd (add_marks example_store "R1" "CS999" 50 100) = st_error "Subject code not found.".
Proof.
  assert (H1 : ~ In "R9" (map roll (tbl_students example_store))).
  { simpl. intros [H|[]]. discriminate H. }
  assert (H2 : ~ In "CS999" (map code (tbl_subjects example_store))).
  { simpl. intros [H|[H|[]]]; discriminate H. }
  destruct (add_marks_not_found example_store "R9" "CS101" 50 100 (or_introl H1))
    as [Ha [_ [Hb _]]].
  destruct (add_marks_not_found example_store "R1" "CS999" 50 100 (or_intror H2))
    as [Hc [_ [_ Hd]]].
  assert (H3 : In "R1" (map roll (tbl_students example_store))) by (simpl; auto).
  exact (conj Ha (conj (Hb H1) (conj Hc (Hd H3)))).
Defined.

(** ** Report engine *)

Lemma in_report_rows (st : Store) (sid : Z) (row : GradeRow) :
  In row (report_rows st sid) <->
  exists s m sub,
    In s (tbl_students st) /\ student_id s = sid /\
    In m (tbl_marks st) /\ m_student_id m = sid /\
    In sub (tbl_subjects st) /\ subject_id sub = m_subject_id m /\
    row = grade_row s m sub.
Proof.
  unfold report_rows. rewrite in_flat_map. split.
  - intros [s [Hs Hrow]]. apply filter_In in Hs as [Hs Es].
    apply Z.eqb_eq in Es.
    apply in_flat_map in Hrow as [m [Hm Hrow]].
    apply filter_In in Hm as [Hm Em]. apply Z.eqb_eq in Em.
    apply in_map_iff in Hrow as [sub [E Hsub]].
    apply filter_In in Hsub as [Hsub Esub]. apply Z.eqb_eq in Esub.
    exists s, m, sub. repeat split; auto; congruence.
  - intros [s [m [sub [Hs [Es [Hm [Em [Hsub [Esub ->]]]]]]]]].
    exists s. split; [apply filter_In; split; [exact Hs | apply Z.eqb_eq, Es]|].
    apply in_flat_map. exists m.
    split; [apply filter_In; split; [exact Hm | apply Z.eqb_eq; congruence]|].
    apply in_map, filter_In. split; [exact Hsub | apply Z.eqb_eq; congruence].
Qed.

Lemma report_rows_student (st : Store) (s : Student) :
  wf st -> In s (tbl_students st) ->
  report_rows st (student_id s) = student_rows st s.
Proof.
  intros Hwf Hs. unfold report_rows.
  rewrite (filter_key_unique student_id Z.eqb Z.eqb_eq _ _ (wf_student_ids _ Hwf) Hs).
  simpl. apply app_nil_r.
Qed.

Lemma report_rows_no_student (st : Store) (sid : Z) :
  ~ In sid (map student_id (tbl_students st)) -> report_rows st sid = [].
Proof.
  intros Hn. unfold report_rows.
  rewrite (filter_key_absent student_id Z.eqb Z.eqb_eq _ _ Hn). reflexivity.
Qed.

Lemma report_rows_no_marks (st : Store) (sid : Z) :
  (forall m, In m (tbl_marks st) -> m_student_id m <> sid) ->
  report_rows st sid = [].
Proof.
  intros Hn. destruct (report_rows st sid) as [|row rows] eqn:E; [reflexivity|].
  assert (Hin : In row (report_rows st sid)) by (rewrite E; left; reflexivity).
  apply in_report_rows in Hin as [s [m [sub [_ [_ [Hm [Em _]]]]]]].
  exfalso. exact (Hn m Hm Em).
Qed.

(** The subject a mark points at is found, and is the only one joined. *)
Lemma join_subject (st : Store) (m : Mark) :
  wf st -> In m (tbl_marks st) ->
  exists sub,
    In sub (tbl_subjects st) /\ subject_id sub = m_subject_id m /\
    filter (fun sub => Z.eqb (m_subject_id m) (subject_id sub)) (tbl_subjects st) = [sub].
Proof.
  intros Hwf Hm. pose proof (wf_mark_subject _ Hwf m Hm) as Hin.
  apply in_map_iff in Hin as [sub [E Hsub]]. exists sub.
  split; [exact Hsub|]. split; [exact E|].
  rewrite <- E.
  rewrite (filter_ext _ (fun y => Z.eqb (subject_id y) (subject_id sub)))
    by (intros y; apply Z.eqb_sym).
  exact (filter_key_unique subject_id Z.eqb Z.eqb_eq _ _ (wf_subject_ids _ Hwf) Hsub).
Qed.

(** Column by column, the joined rows of a student follow the student's
    marks one for one. *)
Lemma student_rows_columns (st : Store) (s : Student) :
  wf st ->
  map r_credits (student_rows st s)
    = map (fun m => subject_credits st (m_subject_id m)) (graded_marks st (student_id s))
  /\ map r_credit_gp (student_rows st s)
    = map (fun m => PyFloat.mul (subject_credits st (m_subject_id m))
                                (mark_grade_point m))
          (graded_marks st (student_id s))
  /\ map r_max_marks (student_rows st s)
    = map max_marks (graded_marks st (student_id s)).
Proof.
  intros Hwf. unfold student_rows.
  assert (Hsub : forall m, In m (graded_marks st (student_id s)) -> In m (tbl_marks st)).
  { intros m Hm. apply filter_In in Hm. tauto. }
  induction (graded_marks st (student_id s)) as [|m ms IH]; simpl;
    [repeat split|].
  destruct IH as [IH1 [IH2 IH3]]; [intros x Hx; apply Hsub; right; exact Hx|].
  destruct (join_subject st m Hwf (Hsub m (or_introl eq_refl)))
    as [sub [_ [_ Ef]]].
  rewrite Ef. simpl. rewrite IH1, IH2, IH3.
  unfold subject_credits. rewrite find_filter, Ef. simpl.
  repeat split.
Qed.

Lemma map_eq_nil_iff {A B C : Type} (f : A -> C) (g : B -> C) (l : list A) (l' : list B) :
  map f l = map g l' -> (l = [] <-> l' = []).
Proof.
  intros E. destruct l, l'; simpl in E; try discriminate; split; auto;
    discriminate.
Qed.

(** A student has a report exactly when a mark row points at the student. *)
Lemma report_rows_nil_iff (st : Store) (s : Student) :
  wf st -> In s (tbl_students st) ->
  (report_rows st (student_id s) = [] <-> graded_marks st (student_id s) = []).
Proof.
  intros Hwf Hs. rewrite (report_rows_student st s Hwf Hs).
  destruct (student_rows_columns st s Hwf) as [E _].
  exact (map_eq_nil_iff _ _ _ _ E).
Qed.

Lemma compute_student_report_some {S : SeriesSum} (st : Store) (now : string) (sid : Z)
      (rows : list GradeRow) (summ : Summary) :
  compute_student_report st now sid = Some (rows, summ) ->
  rows = report_rows st sid /\ rows <> [] /\
  s_roll summ = match rows with r0 :: _ => r_roll r0 | [] => "" end /\
  s_name summ = match rows with r0 :: _ => r_name r0 | [] => "" end /\
  total_credits summ = series_sum (map (fun row => PyFloat.Fin (r_credits row)) rows) /\
  total_credit_gp summ = series_sum (map r_credit_gp rows) /\
  cgpa summ = round2 (if PyFloat.gtb (total_credits summ) 0
                      then PyFloat.quot (total_credit_gp summ) (total_credits summ)
                      else PyFloat.Fin 0) /\
  generated_at summ = now ++ "Z".
Proof.
  unfold compute_student_report.
  destruct (report_rows st sid) as [|r0 rs]; [discriminate|].
  intros E. injection E as <- <-. cbn [s_roll s_name total_credits total_credit_gp cgpa generated_at].
  repeat split. discriminate.
Qed.

(** ** Rounding *)

Lemma rint_near (q : Q) :
  q - (1 # 2) <= inject_Z (rint q) /\ inject_Z (rint q) <= q + (1 # 2).
Proof.
  pose proof (Qfloor_le q) as Hlo. pose proof (Qlt_floor q) as Hhi.
  rewrite inject_Z_plus in Hhi. change (inject_Z 1) with 1 in Hhi.
  unfold rint.
  destruct (Qcompare (q - inject_Z (Qfloor q)) (1 # 2)) eqn:E.
  - apply Qeq_alt in E. destruct (Z.even (Qfloor q)).
    + split; lra.
    + rewrite inject_Z_plus. change (inject_Z 1) with 1. split; lra.
  - apply Qlt_alt in E. split; lra.
  - apply Qgt_alt in E. rewrite inject_Z_plus. change (inject_Z 1) with 1.
    split; lra.
Qed.

(** [round_hundredths] keeps two decimals and moves its argument by at most
    0.005. *)
Lemma round_hundredths_near (q : Q) :
  q - (1 # 200) <= round_hundredths q /\ round_hundredths q <= q + (1 # 200).
Proof.
  destruct (rint_near (q * 100)) as [Hlo Hhi].
  assert (E : round_hundredths q == inject_Z (rint (q * 100)) / 100).
  { unfold round_hundredths. apply Qmake_Qdiv. }
  rewrite E. split.
  - apply Qle_shift_div_l; [reflexivity | lra].
  - apply Qle_shift_div_r; [reflexivity | lra].
Qed.

(** What the float64 operations give on the values of the two examples:
    57/100*100 is not 57, and 323/40 lies below 8.075. *)
Lemma float64_examples :
  PyFloat.scale (PyFloat.div 57 100) 100 = PyFloat.nearest 56.99999999999999
  /\ PyFloat.nearest 56.99999999999999 <> PyFloat.Fin 57
  /\ PyFloat.div 323 40 = PyFloat.Fin (2272910436938547 # 281474976710656)
  /\ 2272910436938547 # 281474976710656 < 8.075
  /\ PyFloat.scale (PyFloat.div 323 40) 100 = PyFloat.nearest 807.4999999999999
  /\ round2 (PyFloat.div 323 40) = PyFloat.nearest 8.07
  /\ PyFloat.nearest (round_hundredths (323 / 40)) = PyFloat.nearest 8.08
  /\ PyFloat.nearest 8.07 <> PyFloat.nearest 8.08
  /\ PyFloat.mul (inject_Z (2 ^ 1023)) 10 = PyFloat.PInf
  /\ round2 (PyFloat.Fin 0) = PyFloat.Fin 0.
Proof. repeat split; vm_compute; (reflexivity || discriminate). Qed.

(** ** The summary *)

Lemma report_has_student (st : Store) (sid : Z) :
  report_rows st sid <> [] ->
  exists s, In s (tbl_students st) /\ student_id s = sid.
Proof.
  intros Hne. destruct (report_rows st sid) as [|row rows] eqn:E;
    [contradiction|].
  assert (Hin : In row (report_rows st sid)) by (rewrite E; left; reflexivity).
  apply in_report_rows in Hin as [s [_ [_ [Hs [Es _]]]]]. eauto.
Qed.





(** C10. For a reachable store, when a report is returned its row list is not
    empty, every row carries the queried student_id, a student row with that
    id exists, and for the student row with that id the summary's roll and
    name, like those of every returned row, are the stored ones. *)
Theorem report_rows_of_student {S : SeriesSum} (st : Store) (now : string) (sid : Z)
        (rows : list GradeRow) (summ : Summary) :
  reachable st ->
  compute_student_report st now sid = Some (rows, summ) ->
  rows <> []
  /\ Forall (fun row => r_student_id row = sid) rows
  /\ (exists s, In s (tbl_students st) /\ student_id s = sid)
  /\ (forall s, In s (tbl_students st) -> student_id s = sid ->
        s_roll summ = roll s /\ s_name summ = name s
        /\ Forall (fun row => r_roll row = roll s /\ r_name row = name s) rows).
Proof.
  intros Hreach Hsome. apply reachable_wf in Hreach as Hwf.
  apply compute_student_report_some in Hsome as [-> [Hne [Hr [Hn _]]]].
  assert (Hrows : forall s, In s (tbl_students st) -> student_id s = sid ->
            Forall (fun row => r_roll row = roll s /\ r_name row = name s)
                   (report_rows st sid)).
  { intros s Hs Es. apply Forall_forall. intros row Hin.
    apply in_report_rows in Hin as [s' [m [sub [Hs' [Es' [_ [_ [_ [_ ->]]]]]]]]].
    assert (s' = s) as ->.
    { apply (NoDup_key_inj student_id (tbl_students st)); auto.
      - apply wf_student_ids, Hwf.
      - congruence. }
    split; reflexivity. }
  split; [exact Hne|]. split; [|split].
  - apply Forall_forall. intros row Hin.
    apply in_report_rows in Hin as [s [m [sub [_ [Es [_ [_ [_ [_ ->]]]]]]]]].
    exact Es.
  - apply report_has_student, Hne.
  - intros s Hs Es. specialize (Hrows s Hs Es).
    destruct (report_rows st sid) as [|r0 rs]; [contradiction|].
    pose proof (Forall_inv Hrows) as [H1 H2].
    rewrite Hr, Hn. auto.
Qed.

Lemma report_rows_of_student_witness :
  reachable example_store /\
  exists rows summ,
    @compute_student_report sum_in_turn example_store "2024-01-01T00:00:00" 1
      = Some (rows, summ)
    /\ rows <> [] /\ s_roll summ = "R1" /\ s_name summ = "Ann".
Proof.
  split; [exact example_store_reachable|].
  eexists _, _. split; [reflexivity|].
  destruct (@report_rows_of_student sum_in_turn example_store
              "2024-01-01T00:00:00" 1 _ _
              example_store_reachable eq_refl) as [Hne [_ [_ Hs]]].
  split; [exact Hne|].
  destruct (Hs (mkStudent 1 "R1" "Ann" "BSc")) as [Hr [Hn _]];
    [simpl; auto | reflexivity |].
  split; [exact Hr | exact Hn].
Defined.

(** ** No marks, and no such student *)

(** C4, as stated: a student without marks and a student_id that does not
    exist would always give different results.  With student 2 (no marks) and
    id 3 (no such student) of [example_store2] both results are [None]. *)
Lemma no_data_same_as_not_found :
  ~ (forall (S : SeriesSum) (st : Store) (now : string) (sid sid' : Z),
       reachable st ->
       sqlite_integer sid = true -> sqlite_integer sid' = true ->
       In sid (map student_id (tbl_students st)) ->
       (forall m, In m (tbl_marks st) -> m_student_id m <> sid) ->
       ~ In sid' (map student_id (tbl_students st)) ->
       call_compute_student_report st now sid
       <> call_compute_student_report st now sid').
Proof.
  intros H.
  apply (H sum_in_turn example_store2 "" 2%Z 3%Z example_store2_reachable).
  - reflexivity.
  - reflexivity.
  - simpl. auto.
  - simpl. intros m [<-|[<-|[]]]; discriminate.
  - simpl. intros [E|[E|[]]]; discriminate E.
  - reflexivity.
Qed.

(** C4, amended.  For a student_id sqlite3 can bind (signed 64 bits): when
    no mark row points at it the call returns [None], no summary is made up;
    when no student row has it the call returns the same [None]. *)
Theorem report_none {S : SeriesSum} (st : Store) (now : string) (sid : Z) :
  sqlite_integer sid = true ->
  (forall m, In m (tbl_marks st) -> m_student_id m <> sid)
  \/ ~ In sid (map student_id (tbl_students st)) ->
  compute_student_report st now sid = None
  /\ call_compute_student_report st now sid = returned None.
Proof.
  intros Hint H.
  assert (E : compute_student_report st now sid = None).
  { unfold compute_student_report.
    destruct H as [H|H];
      [rewrite (report_rows_no_marks st sid H)
      | rewrite (report_rows_no_student st sid H)]; reflexivity. }
  split; [exact E|].
  unfold call_compute_student_report. rewrite Hint, E. reflexivity.
Qed.

Lemma report_none_witness :
  @call_compute_student_report sum_in_turn example_store2 "" 2 = returned None /\
  @call_compute_student_report sum_in_turn example_store2 "" 3 = returned None.
Proof.
  split.
  - apply (@report_none sum_in_turn); [reflexivity|].
    left. simpl. intros m [<-|[<-|[]]]; discriminate.
  - apply (@report_none sum_in_turn); [reflexivity|].
    right. simpl. intros [E|[E|[]]]; discriminate E.
Defined.

(** Outside that range the call raises at the query, whatever the store. *)
Lemma report_out_of_range {S : SeriesSum} (st : Store) (now : string) (sid : Z) :
  (sid < - 2 ^ 63 \/ 2 ^ 63 <= sid)%Z ->
  call_compute_student_report st now sid = raised_OverflowError.
Proof.
  intros H. unfold call_compute_student_report, sqlite_integer.
  destruct H as [H|H].
  - apply Z.leb_gt in H. rewrite H. reflexivity.
  - apply Z.ltb_ge in H. rewrite H, andb_false_r. reflexivity.
Qed.

(** ** max_marks that is not positive *)

Lemma div_by_zero (a b : Q) :
  b == 0 ->
  PyFloat.div a b = match Qcompare a 0 with
                    | Gt => PyFloat.PInf
                    | Lt => PyFloat.NInf
                    | Eq => PyFloat.NaN
                    end.
Proof. intros E. unfold PyFloat.div. apply Qeq_alt in E. rewrite E. reflexivity. Qed.

Lemma div_by_nonzero (a b : Q) :
  ~ b == 0 -> PyFloat.div a b = PyFloat.nearest (a / b).
Proof.
  intros Hn. unfold PyFloat.div.
  destruct (Qcompare b 0) eqn:E; try reflexivity.
  apply Qeq_alt in E. contradiction.
Qed.

(** What [grade_row] puts in the percent and grade columns. *)
Lemma grade_row_percent (s : Student) (m : Mark) (sub : Subject) :
  r_percent (grade_row s m sub) = PyFloat.scale (PyFloat.div (marks m) (max_marks m)) 100
  /\ (r_grade (grade_row s m sub), r_grade_point (grade_row s m sub))
     = grade_from_percent (r_percent (grade_row s m sub))
  /\ (max_marks m == 0 -> marks m == 0 ->
      r_percent (grade_row s m sub) = PyFloat.NaN
      /\ r_grade (grade_row s m sub) = "F"
      /\ r_grade_point (grade_row s m sub) = 0)
  /\ (max_marks m == 0 -> ~ marks m == 0 ->
      (r_percent (grade_row s m sub) = PyFloat.PInf
       /\ r_grade (grade_row s m sub) = "A+"
       /\ r_grade_point (grade_row s m sub) = 10)
      \/ (r_percent (grade_row s m sub) = PyFloat.NInf
          /\ r_grade (grade_row s m sub) = "F"
          /\ r_grade_point (grade_row s m sub) = 0)).
Proof.
  cbn [grade_row r_percent r_grade r_grade_point].
  split; [reflexivity|].
  split; [destruct (grade_from_percent _); reflexivity|].
  split.
  - intros Hz Hm. rewrite (div_by_zero _ _ Hz).
    apply Qeq_alt in Hm. rewrite Hm. repeat split.
  - intros Hz Hm. rewrite (div_by_zero _ _ Hz).
    destruct (Qcompare (marks m) 0) eqn:Ecmp.
    + apply Qeq_alt in Ecmp. contradiction.
    + right. repeat split.
    + left. repeat split.
Qed.

(** C5, as stated: with max_marks <= 0 the call would be rejected (nothing
    stored), or else the percent of the row would count as 0 or undefined.
    Saving 50 out of 0 for R1 in CS101 is accepted, and the report then shows
    an infinite percent graded A+. *)
Lemma max_marks_zero_accepted :
  ~ (forall (S : SeriesSum) (st : Store) (r c : string) (mk mx : Q) (now : string),
       reachable st -> mx <= 0 ->
       fst (add_marks st r c mk mx) = st
       \/ (forall s rows summ row,
             In s (tbl_students st) -> roll s = r ->
             compute_student_report (fst (add_marks st r c mk mx)) now (student_id s)
               = Some (rows, summ) ->
             In row rows -> r_code row = c ->
             r_percent row = PyFloat.NaN
             \/ exists q, r_percent row = PyFloat.Fin q /\ q == 0)).
Proof.
  intros H.
  destruct (H sum_in_turn example_store "R1" "CS101" 50 0 ""
              example_store_reachable) as [E|Hrow].
  - discriminate.
  - vm_compute in E. discriminate E.
  - pose (st' := fst (add_marks example_store "R1" "CS101" 50 0)).
    destruct (@compute_student_report sum_in_turn st' "" 1)
      as [[rows summ]|] eqn:E; [|vm_compute in E; discriminate E].
    destruct rows as [|row rows]; [vm_compute in E; discriminate E|].
    destruct (Hrow (mkStudent 1 "R1" "Ann" "BSc") (row :: rows) summ row)
      as [Hp|[q [Hp _]]].
    + simpl. auto.
    + reflexivity.
    + exact E.
    + left. reflexivity.
    + vm_compute in E. injection E as <- _ _. reflexivity.
    + vm_compute in E. injection E as <- _ _. discriminate Hp.
    + vm_compute in E. injection E as <- _ _. discriminate Hp.
Qed.

(** C5, amended.  [add_marks] makes no test on max_marks: whenever roll and
    code resolve, in a reachable store, it saves the row with the max_marks
    given, zero and negative values included, and the report of that student
    then holds the row of that subject, its percent the float64 quotient
    marks / max_marks times 100, computed with no test either, and its grade
    the one [grade_from_percent] gives that percent.  For max_marks = 0 no
    exception is raised: the percent is NaN when marks = 0 and an infinity
    otherwise, graded A+ with 10 points when it is +inf and F with 0 points
    when it is -inf or NaN. *)
Theorem add_marks_unguarded {S : SeriesSum} (st : Store) (r c : string) (mk mx : Q)
        (now : string) :
  reachable st ->
  In r (map roll (tbl_students st)) ->
  In c (map code (tbl_subjects st)) ->
  snd (add_marks st r c mk mx) = st_success "Marks saved"
  /\ exists s rows summ row,
       In s (tbl_students st) /\ roll s = r
       /\ compute_student_report (fst (add_marks st r c mk mx)) now (student_id s)
          = Some (rows, summ)
       /\ In row rows /\ r_code row = c
       /\ r_marks row = mk /\ r_max_marks row = mx
       /\ r_percent row = PyFloat.scale (PyFloat.div mk mx) 100
       /\ (r_grade row, r_grade_point row) = grade_from_percent (r_percent row)
       /\ (mx == 0 -> mk == 0 ->
           r_percent row = PyFloat.NaN /\ r_grade row = "F" /\ r_grade_point row = 0)
       /\ (mx == 0 -> ~ mk == 0 ->
           (r_percent row = PyFloat.PInf /\ r_grade row = "A+" /\ r_grade_point row = 10)
           \/ (r_percent row = PyFloat.NInf /\ r_grade row = "F"
               /\ r_grade_point row = 0)).
Proof.
  intros Hreach Hr Hc. apply reachable_wf in Hreach as Hwf.
  destruct (resolve_roll st r Hr) as [s [Es [Hs Hrs]]].
  destruct (resolve_code st c Hc) as [sub [Ec [Hsub Hcs]]].
  destruct (add_marks_row st r c mk mx s sub Hwf Es Ec)
    as [m [Hf [Hmk [Hmx [Hst [Hsu Hmsg]]]]]].
  split; [exact Hmsg|].
  set (st' := fst (add_marks st r c mk mx)) in *.
  assert (Hm : In m (tbl_marks st') /\ mark_of (student_id s) (subject_id sub) m = true).
  { apply filter_In. rewrite Hf. left. reflexivity. }
  destruct Hm as [Hm Hp]. apply mark_of_true in Hp as [Hp1 Hp2].
  assert (Hrow : In (grade_row s m sub) (report_rows st' (student_id s))).
  { apply in_report_rows. exists s, m, sub.
    rewrite Hst, Hsu. repeat split; auto. }
  destruct (compute_student_report st' now (student_id s)) as [[rows summ]|] eqn:E.
  - destruct (compute_student_report_some _ _ _ _ _ E) as [Hrows _].
    rewrite <- Hrows in Hrow.
    exists s, rows, summ, (grade_row s m sub).
    destruct (grade_row_percent s m sub) as [G1 [G2 [G3 G4]]].
    rewrite Hmk, Hmx in G1, G3, G4.
    split; [exact Hs|]. split; [exact Hrs|]. split; [exact E|].
    split; [exact Hrow|]. split; [exact Hcs|]. split; [exact Hmk|].
    split; [exact Hmx|]. split; [exact G1|]. split; [exact G2|].
    split; [exact G3 | exact G4].
  - exfalso. unfold compute_student_report in E.
    destruct (report_rows st' (student_id s)); [contradiction | discriminate].
Qed.

Lemma add_marks_unguarded_witness :
  reachable example_store /\
  snd (add_marks example_store "R1" "CS101" 50 0) = st_success "Marks saved" /\
  exists rows summ row,
    @compute_student_report sum_in_turn
      (fst (add_marks example_store "R1" "CS101" 50 0)) "" 1
      = Some (rows, summ)
    /\ In row rows /\ r_max_marks row = 0
    /\ r_percent row = PyFloat.scale (PyFloat.div 50 0) 100.
Proof.
  split; [exact example_store_reachable|].
  destruct (@add_marks_unguarded sum_in_turn example_store "R1" "CS101" 50 0 ""
              example_store_reachable) as [Hmsg [s [rows [summ [row H]]]]].
  - simpl. auto.
  - simpl. auto.
  - split; [exact Hmsg|].
    destruct H as [Hs [_ [E [Hin [_ [_ [Hmx [Hp _]]]]]]]].
    assert (Es : s = mkStudent 1 "R1" "Ann" "BSc").
    { simpl in Hs. destruct Hs as [<-|[]]. reflexivity. }
    subst s. exists rows, summ, row.
    repeat split; assumption.
Defined.

(** What the report shows for 50 out of 0. *)
Lemma zero_max_marks_report :
  PyFloat.scale (PyFloat.div 50 0) 100 = PyFloat.PInf
  /\ grade_from_percent PyFloat.PInf = ("A+", 10)
  /\ exists rows summ,
       @compute_student_report sum_in_turn
         (fst (add_marks example_store "R1" "CS101" 50 0)) "" 1 = Some (rows, summ)
       /\ map r_percent rows = [PyFloat.PInf; PyFloat.Fin 65]
       /\ map r_grade rows = ["A+"; "B"].
Proof.
  split; [reflexivity|]. split; [reflexivity|].
  eexists _, _. split; [reflexivity|]. split; vm_compute; reflexivity.
Qed.

(** ** Class ranking *)

Lemma insert_by_perm {A : Type} (key : A -> string) (x : A) (l : list A) :
  Permutation (x :: l) (insert_by key x l).
Proof.
  induction l as [|y l IH]; simpl; [reflexivity|].
  destruct (String.leb (key x) (key y)); [reflexivity|].
  rewrite perm_swap. apply perm_skip. exact IH.
Qed.

Lemma order_by_perm {A : Type} (key : A -> string) (l : list A) :
  Permutation l (order_by key l).
Proof.
  induction l as [|x l IH]; simpl; [reflexivity|].
  rewrite <- insert_by_perm. apply perm_skip. exact IH.
Qed.

(** [PyFloat.leb] orders the float64 values that are numbers. *)
Lemma leb_total (x y : PyFloat.t) :
  PyFloat.is_nan x = false -> PyFloat.is_nan y = false ->
  PyFloat.leb x y = false -> PyFloat.leb y x = true.
Proof.
  destruct x as [a| | |], y as [b| | |]; simpl; try congruence.
  intros _ _ H. apply Qle_bool_iff.
  destruct (Qlt_le_dec a b) as [Hlt|Hle]; [|exact Hle].
  apply Qlt_le_weak in Hlt. apply Qle_bool_iff in Hlt. congruence.
Qed.

Lemma leb_trans (x y z : PyFloat.t) :
  PyFloat.leb x y = true -> PyFloat.leb y z = true -> PyFloat.leb x z = true.
Proof.
  destruct x as [a| | |], y as [b| | |], z as [c| | |]; simpl; try congruence.
  rewrite !Qle_bool_iff. apply Qle_trans.
Qed.

Lemma insert_desc_perm (x : RankRow) (l : list RankRow) :
  Permutation (x :: l) (insert_desc x l).
Proof.
  induction l as [|y l IH]; simpl; [reflexivity|].
  destruct (PyFloat.leb (k_cgpa x) (k_cgpa y)); [|reflexivity].
  rewrite perm_swap. apply perm_skip. exact IH.
Qed.

Lemma insert_desc_sorted (x : RankRow) (l : list RankRow) :
  cgpa_is_nan x = false ->
  Forall (fun row => cgpa_is_nan row = false) l ->
  StronglySorted (fun a b => PyFloat.leb (k_cgpa b) (k_cgpa a) = true) l ->
  StronglySorted (fun a b => PyFloat.leb (k_cgpa b) (k_cgpa a) = true)
                 (insert_desc x l).
Proof.
  intros Hx. induction l as [|y l IH]; simpl; intros Hnan Hs.
  - repeat constructor.
  - apply StronglySorted_inv in Hs as [Hs Hy].
    apply Forall_cons_iff in Hnan as [Hynan Hnan].
    destruct (PyFloat.leb (k_cgpa x) (k_cgpa y)) eqn:E.
    + constructor; [apply IH; assumption|].
      apply Forall_forall. intros z Hz.
      apply (Permutation_in _ (Permutation_sym (insert_desc_perm x l))) in Hz.
      destruct Hz as [<-|Hz]; [exact E|].
      rewrite Forall_forall in Hy. exact (Hy z Hz).
    + apply (leb_total _ _ Hx Hynan) in E.
      constructor; [constructor; assumption|].
      constructor; [exact E|].
      apply Forall_forall. intros z Hz.
      rewrite Forall_forall in Hy.
      exact (leb_trans _ _ _ (Hy z Hz) E).
Qed.

Lemma insertion_sorted (l : list RankRow) :
  Forall (fun row => cgpa_is_nan row = false) l ->
  Permutation l (fold_right insert_desc [] l)
  /\ StronglySorted (fun a b => PyFloat.leb (k_cgpa b) (k_cgpa a) = true)
                    (fold_right insert_desc [] l).
Proof.
  induction 1 as [|x l Hx Hl [IHp IHs]]; simpl; [split; constructor|].
  split.
  - rewrite <- insert_desc_perm. apply perm_skip. exact IHp.
  - apply insert_desc_sorted; [exact Hx | | exact IHs].
    apply (Permutation_Forall IHp). exact Hl.
Qed.

Lemma filter_not_nan (l : list RankRow) :
  Forall (fun row => cgpa_is_nan row = false)
         (filter (fun row => negb (cgpa_is_nan row)) l).
Proof.
  apply Forall_forall. intros row Hin. apply filter_In in Hin as [_ H].
  apply negb_true_iff. exact H.
Qed.

(** The insertion sort meets the contract of [sort_values]. *)
Lemma sort_desc_sort_values (l : list RankRow) :
  sort_values_cgpa_desc l (sort_desc l).
Proof.
  destruct (insertion_sorted _ (filter_not_nan l)) as [Hp Hs].
  exists (fold_right insert_desc [] (filter (fun row => negb (cgpa_is_nan row)) l)).
  split; [exact Hp|]. split; [exact Hs | reflexivity].
Qed.

Lemma dashboard_cgpa_total {S : SeriesSum} (st : Store) (now : string) :
  exists v, dashboard_cgpa st now v.
Proof.
  unfold dashboard_cgpa. destruct (rank_rows st now) as [|row rows].
  - eexists. reflexivity.
  - exists (st_dataframe (sort_desc (row :: rows))), (sort_desc (row :: rows)).
    split; [apply sort_desc_sort_values | reflexivity].
Qed.

Lemma filter_split_perm {A : Type} (p : A -> bool) (l : list A) :
  Permutation l (filter (fun x => negb (p x)) l ++ filter p l).
Proof.
  induction l as [|x l IH]; simpl; [constructor|].
  destruct (p x); simpl.
  - apply Permutation_cons_app. exact IH.
  - apply perm_skip. exact IH.
Qed.

(** What [sort_values] returns is a rearrangement of what it is given. *)
Lemma sort_values_perm (l out : list RankRow) :
  sort_values_cgpa_desc l out -> Permutation l out.
Proof.
  intros [sorted [Hp [_ ->]]].
  rewrite (filter_split_perm cgpa_is_nan l) at 1.
  apply Permutation_app_tail. exact Hp.
Qed.

Lemma has_marks_false (st : Store) (s : Student) :
  has_marks st s = false ->
  forall m, In m (tbl_marks st) -> m_student_id m <> student_id s.
Proof.
  intros H m Hm E. unfold has_marks in H.
  assert (Ht : existsb (fun m => Z.eqb (student_id s) (m_student_id m))
                       (tbl_marks st) = true).
  { apply existsb_exists. exists m. split; [exact Hm | apply Z.eqb_eq; auto]. }
  congruence.
Qed.

Lemma has_marks_true (st : Store) (s : Student) :
  has_marks st s = true -> graded_marks st (student_id s) <> [].
Proof.
  intros H. apply existsb_exists in H as [m [Hm E]].
  intros Hnil.
  assert (Hin : In m (graded_marks st (student_id s)))
    by (apply filter_In; split; assumption).
  rewrite Hnil in Hin. exact Hin.
Qed.

Lemma report_student_identity (st : Store) (s : Student) :
  wf st -> In s (tbl_students st) ->
  Forall (fun row => r_roll row = roll s /\ r_name row = name s)
         (report_rows st (student_id s)).
Proof.
  intros Hwf Hs. rewrite (report_rows_student st s Hwf Hs).
  apply Forall_forall. intros row Hin. unfold student_rows in Hin.
  apply in_flat_map in Hin as [m [_ Hin]].
  apply in_map_iff in Hin as [sub [<- _]]. split; reflexivity.
Qed.

Lemma rank_of_student {S : SeriesSum} (st : Store) (now : string) (s : Student) :
  wf st -> In s (tbl_students st) ->
  if has_marks st s
  then exists rows summ,
         compute_student_report st now (student_id s) = Some (rows, summ)
         /\ rank_of st now (student_id s) = [rank_row summ]
         /\ s_roll summ = roll s
  else rank_of st now (student_id s) = [].
Proof.
  intros Hwf Hs. unfold rank_of. destruct (has_marks st s) eqn:E.
  - apply has_marks_true in E.
    pose proof (proj1 (report_rows_nil_iff st s Hwf Hs)) as Hnil.
    pose proof (report_student_identity st s Hwf Hs) as Hid.
    destruct (compute_student_report st now (student_id s)) as [[rows summ]|] eqn:Ec.
    + exists rows, summ. repeat split.
      apply compute_student_report_some in Ec as [-> [Hne [Hr _]]].
      destruct (report_rows st (student_id s)) as [|r0 rs]; [contradiction|].
      rewrite Hr. exact (proj1 (Forall_inv Hid)).
    + exfalso. unfold compute_student_report in Ec.
      destruct (report_rows st (student_id s)); [auto | discriminate].
  - pose proof (has_marks_false st s E) as Hn.
    unfold compute_student_report. rewrite (report_rows_no_marks st _ Hn).
    reflexivity.
Qed.

Lemma rank_rows_unfold {S : SeriesSum} (st : Store) (now : string) :
  rank_rows st now
  = flat_map (fun s => rank_of st now (student_id s)) (get_all_students_df st).
Proof.
  unfold rank_rows, rank_of.
  induction (get_all_students_df st) as [|s l IH]; simpl; [reflexivity|].
  rewrite IH. reflexivity.
Qed.

Lemma rank_rolls {S : SeriesSum} (st : Store) (now : string) (l : list Student) :
  wf st -> incl l (tbl_students st) ->
  map k_roll (flat_map (fun s => rank_of st now (student_id s)) l)
  = map roll (filter (has_marks st) l).
Proof.
  intros Hwf. induction l as [|s l IH]; simpl; intros Hincl; [reflexivity|].
  rewrite map_app, IH by (intros x Hx; apply Hincl; right; exact Hx).
  pose proof (rank_of_student st now s Hwf (Hincl s (or_introl eq_refl))) as H.
  destruct (has_marks st s).
  - destruct H as [rows [summ [_ [-> Hr]]]]. simpl. rewrite Hr. reflexivity.
  - rewrite H. reflexivity.
Qed.

Lemma filter_perm {A : Type} (p : A -> bool) (l l' : list A) :
  Permutation l l' -> Permutation (filter p l) (filter p l').
Proof.
  induction 1; simpl.
  - constructor.
  - destruct (p x); [apply perm_skip|]; assumption.
  - destruct (p x), (p y); try reflexivity. apply perm_swap.
  - etransitivity; eassumption.
Qed.

Lemma rank_rows_rolls {S : SeriesSum} (st : Store) (now : string) :
  wf st ->
  Permutation (map k_roll (rank_rows st now))
              (map roll (filter (has_marks st) (tbl_students st)))
  /\ NoDup (map k_roll (rank_rows st now)).
Proof.
  intros Hwf. rewrite rank_rows_unfold, rank_rolls.
  - pose proof (order_by_perm roll (tbl_students st)) as Hp.
    assert (Hq : Permutation (map roll (filter (has_marks st) (get_all_students_df st)))
                             (map roll (filter (has_marks st) (tbl_students st)))).
    { apply Permutation_map, filter_perm, Permutation_sym, Hp. }
    split; [exact Hq|].
    apply (Permutation_NoDup (Permutation_sym Hq)).
    apply filter_key_NoDup, wf_rolls, Hwf.
  - exact Hwf.
  - intros s Hs. apply (Permutation_in _ (Permutation_sym (order_by_perm roll _))).
    exact Hs.
Qed.

Lemma rank_rows_origin {S : SeriesSum} (st : Store) (now : string) (row : RankRow) :
  wf st -> In row (rank_rows st now) ->
  exists s rows summ,
    In s (tbl_students st) /\ has_marks st s = true /\ roll s = k_roll row /\
    compute_student_report st now (student_id s) = Some (rows, summ) /\
    row = rank_row summ.
Proof.
  intros Hwf Hin. rewrite rank_rows_unfold in Hin.
  apply in_flat_map in Hin as [s [Hs Hrow]].
  apply (Permutation_in _ (Permutation_sym (order_by_perm roll _))) in Hs.
  pose proof (rank_of_student st now s Hwf Hs) as H.
  destruct (has_marks st s) eqn:E.
  - destruct H as [rows [summ [Ec [Er Hr]]]]. rewrite Er in Hrow.
    destruct Hrow as [<-|[]]. exists s, rows, summ. repeat split; auto.
  - rewrite H in Hrow. destruct Hrow.
Qed.

Lemma rank_rows_nil {S : SeriesSum} (st : Store) (now : string) :
  wf st -> rank_rows st now = [] ->
  forall s, In s (tbl_students st) -> has_marks st s = false.
Proof.
  intros Hwf Hnil s Hs.
  destruct (rank_rows_rolls st now Hwf) as [Hp _]. rewrite Hnil in Hp.
  apply Permutation_nil in Hp.
  destruct (has_marks st s) eqn:E; [|reflexivity].
  assert (Hin : In (roll s) (map roll (filter (has_marks st) (tbl_students st)))).
  { apply in_map, filter_In. split; assumption. }
  rewrite Hp in Hin. destruct Hin.
Qed.

(** X13.  For a reachable store the Dashboard always has something to
    show.  When it shows the message, no student has a mark.  When it shows a
    table, the table is not empty; its rolls are, up to order, the rolls of
    the students that have at least one mark, each once, so students without
    marks are left out; every row is the summary of the report of the student
    of that roll; the rows whose cgpa is a number come first, in descending
    cgpa, and the rows whose cgpa is NaN come last.  Nothing is said of the
    order among rows of equal cgpa: [sort_values] is called on cgpa alone
    with the default sort kind. *)
Theorem dashboard_ranking {S : SeriesSum} (st : Store) (now : string) :
  reachable st ->
  (exists v, dashboard_cgpa st now v)
  /\ forall v, dashboard_cgpa st now v ->
       match v with
       | st_info msg =>
           msg = "No marks present yet."
           /\ forall s, In s (tbl_students st) -> has_marks st s = false
       | st_dataframe out =>
           out <> []
           /\ Permutation (map k_roll out)
                (map roll (filter (has_marks st) (tbl_students st)))
           /\ NoDup (map k_roll out)
           /\ (forall row, In row out ->
                 exists s rows summ,
                   In s (tbl_students st) /\ has_marks st s = true
                   /\ roll s = k_roll row
                   /\ compute_student_report st now (student_id s) = Some (rows, summ)
                   /\ row = rank_row summ)
           /\ exists numbers nans,
                out = (numbers ++ nans)%list
                /\ StronglySorted
                     (fun a b => PyFloat.leb (k_cgpa b) (k_cgpa a) = true) numbers
                /\ Forall (fun row => cgpa_is_nan row = false) numbers
                /\ Forall (fun row => cgpa_is_nan row = true) nans
       end.
Proof.
  intros Hreach. apply reachable_wf in Hreach as Hwf.
  split; [apply dashboard_cgpa_total|].
  intros v Hv. unfold dashboard_cgpa in Hv.
  destruct (rank_rows_rolls st now Hwf) as [Hperm Hnd].
  pose proof (rank_rows_origin st now) as Horigin.
  pose proof (rank_rows_nil st now Hwf) as Hnil.
  destruct (rank_rows st now) as [|r0 rs] eqn:E.
  - subst v. split; [reflexivity | apply Hnil; reflexivity].
  - destruct Hv as [out [Hsort ->]].
    pose proof (sort_values_perm _ _ Hsort) as Hp.
    split; [|split; [|split; [|split]]].
    + intros ->. apply Permutation_sym, Permutation_nil in Hp. discriminate Hp.
    + rewrite <- Hperm. apply Permutation_map, Permutation_sym, Hp.
    + apply (Permutation_NoDup (Permutation_map k_roll Hp)). exact Hnd.
    + intros row Hin. apply Horigin; [exact Hwf|].
      apply (Permutation_in _ (Permutation_sym Hp)). exact Hin.
    + destruct Hsort as [numbers [Hpn [Hs ->]]].
      exists numbers, (filter cgpa_is_nan (r0 :: rs)).
      split; [reflexivity|]. split; [exact Hs|]. split.
      * apply (Permutation_Forall Hpn). apply filter_not_nan.
      * apply Forall_forall. intros row Hin.
        apply filter_In in Hin. tauto.
Qed.

Lemma dashboard_ranking_witness :
  reachable example_store2 /\
  exists out,
    @dashboard_cgpa sum_in_turn example_store2 "" (st_dataframe out)
    /\ Permutation (map k_roll out) ["R1"].
Proof.
  split; [exact example_store2_reachable|].
  destruct (@dashboard_ranking sum_in_turn example_store2 ""
              example_store2_reachable) as [_ Hall].
  assert (Hd : @dashboard_cgpa sum_in_turn example_store2 ""
                 (st_dataframe (sort_desc (@rank_rows sum_in_turn example_store2 "")))).
  { unfold dashboard_cgpa.
    destruct (@rank_rows sum_in_turn example_store2 "") as [|r0 rs] eqn:E;
      [vm_compute in E; discriminate E|].
    eexists. split; [apply sort_desc_sort_values | reflexivity]. }
  exists (sort_desc (@rank_rows sum_in_turn example_store2 "")).
  split; [exact Hd|].
  destruct (Hall _ Hd) as [_ [Hp _]]. exact Hp.
Defined.

(** * Further properties of the store and the pages *)

(** ** What the write paths keep *)

(** X1. Every store the program can reach meets the constraints the data
    model relies on: student, subject and mark identifiers are unique, rolls
    and codes are unique, a (student, subject) pair has at most one mark row,
    and every mark row refers to a student row and a subject row that
    exist. *)
Theorem reachable_store_integrity (st : Store) :
  reachable st ->
  NoDup (map student_id (tbl_students st))
  /\ NoDup (map roll (tbl_students st))
  /\ NoDup (map subject_id (tbl_subjects st))
  /\ NoDup (map code (tbl_subjects st))
  /\ NoDup (map mark_id (tbl_marks st))
  /\ NoDup (map mark_pair (tbl_marks st))
  /\ (forall m, In m (tbl_marks st) ->
        (exists s, In s (tbl_students st) /\ student_id s = m_student_id m)
        /\ (exists sub, In sub (tbl_subjects st) /\ subject_id sub = m_subject_id m)).
Proof.
  intros Hreach. apply reachable_wf in Hreach as [H1 H2 H3 H4 H5 H6 H7 H8].
  repeat (split; [assumption|]).
  intros m Hm. split.
  - specialize (H7 m Hm). apply in_map_iff in H7 as [s [E Hs]]. eauto.
  - specialize (H8 m Hm). apply in_map_iff in H8 as [sub [E Hs]]. eauto.
Qed.

Lemma reachable_store_integrity_witness :
  reachable example_store /\
  NoDup (map roll (tbl_students example_store)) /\
  NoDup (map mark_pair (tbl_marks example_store)).
Proof.
  split; [exact example_store_reachable|].
  destruct (reachable_store_integrity example_store example_store_reachable)
    as [_ [Hr [_ [_ [_ [Hp _]]]]]].
  split; assumption.
Defined.

Lemma find_roll_unique (st : Store) (s : Student) :
  wf st -> In s (tbl_students st) ->
  find (roll_is (roll s)) (tbl_students st) = Some s.
Proof.
  intros Hwf Hs. rewrite find_filter, (filter_roll_unique st s Hwf Hs).
  reflexivity.
Qed.

Lemma find_code_unique (st : Store) (sub : Subject) :
  wf st -> In sub (tbl_subjects st) ->
  find (code_is (code sub)) (tbl_subjects st) = Some sub.
Proof.
  intros Hwf Hs. rewrite find_filter, (filter_code_unique st sub Hwf Hs).
  reflexivity.
Qed.

Lemma filter_refine {A : Type} (p q : A -> bool) (l : list A) :
  (forall x, p x = true -> q x = true) ->
  filter p (filter q l) = filter p l.
Proof.
  intros Himp. induction l as [|x l IH]; simpl; [reflexivity|].
  destruct (q x) eqn:Eq; simpl; rewrite IH; [reflexivity|].
  destruct (p x) eqn:Ep; [|reflexivity].
  apply Himp in Ep. congruence.
Qed.

(** The rows of the other pairs come through [add_marks] as they were. *)
Lemma add_marks_others (st : Store) (r c : string) (mk mx : Q) (s : Student) (sub : Subject) :
  wf st ->
  find (roll_is r) (tbl_students st) = Some s ->
  find (code_is c) (tbl_subjects st) = Some sub ->
  filter (fun m => negb (mark_of (student_id s) (subject_id sub) m))
         (tbl_marks (fst (add_marks st r c mk mx)))
  = filter (fun m => negb (mark_of (student_id s) (subject_id sub) m)) (tbl_marks st).
Proof.
  intros Hwf Es Ec. unfold add_marks. rewrite Es, Ec. cbv zeta.
  destruct (find (mark_of (student_id s) (subject_id sub)) (tbl_marks st))
    as [ex|] eqn:Em; cbn [fst tbl_marks].
  - apply find_some in Em as [Hex Hp].
    rewrite filter_map_swap.
    rewrite (filter_ext _ (fun m => negb (mark_of (student_id s) (subject_id sub) m))).
    + apply map_fixed. intros x Hx. apply filter_In in Hx as [Hx Hq].
      unfold update_mark. destruct (Z.eqb (mark_id x) (mark_id ex)) eqn:E;
        [|reflexivity].
      apply Z.eqb_eq in E.
      apply (NoDup_key_inj mark_id _ x ex (wf_mark_ids _ Hwf) Hx Hex) in E.
      subst x. rewrite Hp in Hq. discriminate Hq.
    + intros m. unfold mark_of.
      destruct (update_mark_keys (mark_id ex) mk mx m) as [_ [-> ->]].
      reflexivity.
  - rewrite filter_app. cbn [filter]. unfold mark_of at 2.
    cbn [m_student_id m_subject_id]. rewrite !Z.eqb_refl. cbn.
    apply app_nil_r.
Qed.

(** X2. In a reachable store, [add_marks] for the student of roll [r] and the
    subject of code [c] touches nothing but the mark of that pair: the
    students and subjects tables are the same, the mark rows of every other
    pair are the same rows in the same order, the marks table grows by one
    row when the pair had no mark and keeps its length when it had one, and
    in that case the row keeps its mark_id. *)
Theorem add_marks_frame (st : Store) (r c : string) (mk mx : Q) (s : Student) (sub : Subject) :
  reachable st ->
  In s (tbl_students st) -> roll s = r ->
  In sub (tbl_subjects st) -> code sub = c ->
  tbl_students (fst (add_marks st r c mk mx)) = tbl_students st
  /\ tbl_subjects (fst (add_marks st r c mk mx)) = tbl_subjects st
  /\ filter (fun m => negb (mark_of (student_id s) (subject_id sub) m))
            (tbl_marks (fst (add_marks st r c mk mx)))
     = filter (fun m => negb (mark_of (student_id s) (subject_id sub) m)) (tbl_marks st)
  /\ List.length (tbl_marks (fst (add_marks st r c mk mx)))
     = (if existsb (mark_of (student_id s) (subject_id sub)) (tbl_marks st)
        then List.length (tbl_marks st) else S (List.length (tbl_marks st)))
  /\ (forall old, In old (tbl_marks st) ->
        mark_of (student_id s) (subject_id sub) old = true ->
        In (mkMark (mark_id old) (student_id s) (subject_id sub) mk mx)
           (tbl_marks (fst (add_marks st r c mk mx)))).
Proof.
  intros Hreach Hs <- Hsub <-. apply reachable_wf in Hreach as Hwf.
  pose proof (find_roll_unique st s Hwf Hs) as Es.
  pose proof (find_code_unique st sub Hwf Hsub) as Ec.
  pose proof (add_marks_others st _ _ mk mx s sub Hwf Es Ec) as Hothers.
  split; [|split; [|split; [exact Hothers|]]].
  - unfold add_marks. rewrite Es, Ec. cbv zeta.
    destruct (find _ (tbl_marks st)); reflexivity.
  - unfold add_marks. rewrite Es, Ec. cbv zeta.
    destruct (find _ (tbl_marks st)); reflexivity.
  - unfold add_marks. rewrite Es, Ec. cbv zeta.
    destruct (find (mark_of (student_id s) (subject_id sub)) (tbl_marks st))
      as [ex|] eqn:Em; cbn [fst tbl_marks].
    + split.
      * rewrite length_map.
        assert (E : existsb (mark_of (student_id s) (subject_id sub)) (tbl_marks st) = true).
        { apply find_some in Em as [Hex Hp]. apply existsb_exists. eauto. }
        rewrite E. reflexivity.
      * intros old Hold Hp. apply find_some in Em as [Hex Hpex].
        assert (old = ex) as ->.
        { apply (NoDup_key_inj mark_pair _ old ex (wf_pairs _ Hwf) Hold Hex).
          apply mark_of_true in Hp as [A1 A2].
          apply mark_of_true in Hpex as [B1 B2].
          unfold mark_pair. congruence. }
        apply in_map_iff. exists ex. split; [|exact Hex].
        unfold update_mark. rewrite Z.eqb_refl.
        apply mark_of_true in Hpex as [-> ->]. reflexivity.
    + split.
      * rewrite length_app. cbn [List.length].
        assert (E : existsb (mark_of (student_id s) (subject_id sub)) (tbl_marks st) = false).
        { destruct (existsb _ (tbl_marks st)) eqn:E; [|reflexivity].
          apply existsb_exists in E as [x [Hx Hp]].
          apply (find_none _ _ Em) in Hx. congruence. }
        rewrite E. lia.
      * intros old Hold Hp. apply (find_none _ _ Em) in Hold. congruence.
Qed.

Lemma add_marks_frame_witness :
  reachable example_store /\
  List.length (tbl_marks (fst (add_marks example_store "R1" "CS102" 70 100))) = 2%nat /\
  In (mkMark 2 1 2 70 100) (tbl_marks (fst (add_marks example_store "R1" "CS102" 70 100))).
Proof.
  split; [exact example_store_reachable|].
  destruct (add_marks_frame example_store "R1" "CS102" 70 100
              (mkStudent 1 "R1" "Ann" "BSc") (mkSubject 2 "CS102" "Algorithms" 3)
              example_store_reachable)
    as [_ [_ [_ [Hlen Hold]]]]; try reflexivity.
  - simpl. auto.
  - simpl. auto.
  - split; [exact Hlen|].
    apply (Hold (mkMark 2 1 2 65 100)); [simpl; auto | reflexivity].
Defined.

(** ** Reports across writes *)

Lemma flat_map_ext_on {A B : Type} (f g : A -> list B) (l : list A) :
  (forall x, In x l -> f x = g x) -> flat_map f l = flat_map g l.
Proof.
  induction l as [|x l IH]; simpl; intros H; [reflexivity|].
  rewrite (H x) by (left; reflexivity).
  rewrite IH by (intros y Hy; apply H; right; exact Hy). reflexivity.
Qed.

(** The joined rows of a student depend on the students and subjects tables
    and on the mark rows of that student only. *)
Lemma report_rows_same (st st' : Store) (sid : Z) :
  tbl_students st' = tbl_students st ->
  tbl_subjects st' = tbl_subjects st ->
  filter (fun m => Z.eqb sid (m_student_id m)) (tbl_marks st')
  = filter (fun m => Z.eqb sid (m_student_id m)) (tbl_marks st) ->
  report_rows st' sid = report_rows st sid.
Proof.
  intros E1 E2 E3. unfold report_rows. rewrite E1, E2.
  apply flat_map_ext_on. intros s Hs.
  apply filter_In in Hs as [_ Hs]. apply Z.eqb_eq in Hs. rewrite Hs.
  rewrite E3. reflexivity.
Qed.

Lemma report_same_rows {S : SeriesSum} (st st' : Store) (now : string) (sid : Z) :
  report_rows st' sid = report_rows st sid ->
  compute_student_report st' now sid = compute_student_report st now sid.
Proof. intros E. unfold compute_student_report. rewrite E. reflexivity. Qed.

(** X3. In a reachable store, saving marks for the student of roll [r]
    leaves the report of every other student_id exactly as it was. *)
Theorem add_marks_other_reports {S : SeriesSum} (st : Store) (r c : string) (mk mx : Q)
        (now : string) (s : Student) (sid' : Z) :
  reachable st ->
  In s (tbl_students st) -> roll s = r ->
  sid' <> student_id s ->
  compute_student_report (fst (add_marks st r c mk mx)) now sid'
  = compute_student_report st now sid'.
Proof.
  intros Hreach Hs <- Hne. apply reachable_wf in Hreach as Hwf.
  pose proof (find_roll_unique st s Hwf Hs) as Es.
  destruct (find (code_is c) (tbl_subjects st)) as [sub|] eqn:Ec.
  - apply report_same_rows, report_rows_same.
    + unfold add_marks. rewrite Es, Ec. cbv zeta.
      destruct (find _ (tbl_marks st)); reflexivity.
    + unfold add_marks. rewrite Es, Ec. cbv zeta.
      destruct (find _ (tbl_marks st)); reflexivity.
    + pose proof (add_marks_others st _ c mk mx s sub Hwf Es Ec) as Hothers.
      assert (Himp : forall m, Z.eqb sid' (m_student_id m) = true ->
                negb (mark_of (student_id s) (subject_id sub) m) = true).
      { intros m E. apply Z.eqb_eq in E. unfold mark_of.
        destruct (Z.eqb (m_student_id m) (student_id s)) eqn:E';
          [|reflexivity].
        apply Z.eqb_eq in E'. congruence. }
      rewrite <- (filter_refine _ _ (tbl_marks (fst _)) Himp).
      rewrite <- (filter_refine _ _ (tbl_marks st) Himp).
      rewrite Hothers. reflexivity.
  - unfold add_marks. rewrite Es, Ec. reflexivity.
Qed.

Lemma add_marks_other_reports_witness :
  reachable tie_store /\
  @compute_student_report sum_in_turn
    (fst (add_marks tie_store "R1" "CS101" 10 100)) "" 2
  = @compute_student_report sum_in_turn tie_store "" 2.
Proof.
  split; [exact tie_store_reachable|].
  apply (@add_marks_other_reports sum_in_turn tie_store "R1" "CS101" 10 100 ""
           (mkStudent 1 "R1" "Ann" "BSc") 2 tie_store_reachable).
  - simpl. auto.
  - reflexivity.
  - discriminate.
Defined.

(** X4. In a reachable store, adding a student or adding a subject changes no
    report: for every student_id, the new student's included, the report
    after the call is the report before it. *)
Theorem add_rows_keep_reports {S : SeriesSum} (st : Store) (now : string) (sid : Z) :
  reachable st ->
  (forall r n p,
      compute_student_report (fst (add_student st r n p)) now sid
      = compute_student_report st now sid)
  /\ (forall c t cr,
      compute_student_report (fst (add_subject st c t cr)) now sid
      = compute_student_report st now sid).
Proof.
  intros Hreach. apply reachable_wf in Hreach as Hwf. split.
  - intros r n p. apply report_same_rows. unfold add_student.
    destruct (existsb (roll_is r) (tbl_students st)); [reflexivity|].
    unfold report_rows. cbn [fst tbl_students tbl_subjects tbl_marks].
    rewrite filter_app, flat_map_app. cbn [filter student_id].
    destruct (Z.eqb (next_rowid (map student_id (tbl_students st))) sid);
      [|cbn; apply app_nil_r].
    cbn [flat_map].
    assert (Hnone : filter (fun m => Z.eqb (next_rowid (map student_id (tbl_students st)))
                                           (m_student_id m)) (tbl_marks st) = []).
    { apply find_none_filter.
      destruct (find _ (tbl_marks st)) as [m|] eqn:E; [|reflexivity].
      apply find_some in E as [Hm E]. apply Z.eqb_eq in E.
      exfalso. apply (next_rowid_fresh (map student_id (tbl_students st))).
      rewrite E. apply (wf_mark_student _ Hwf m Hm). }
    cbn [student_id]. rewrite Hnone. cbn. rewrite !app_nil_r. reflexivity.
  - intros c t cr. apply report_same_rows. unfold add_subject.
    destruct (existsb (code_is c) (tbl_subjects st)); [reflexivity|].
    unfold report_rows. cbn [fst tbl_students tbl_subjects tbl_marks].
    apply flat_map_ext_on. intros s _.
    apply flat_map_ext_on. intros m Hm. apply filter_In in Hm as [Hm _].
    rewrite filter_app. cbn [filter subject_id].
    destruct (Z.eqb (m_subject_id m) (next_rowid (map subject_id (tbl_subjects st))))
      eqn:E; [|rewrite app_nil_r; reflexivity].
    apply Z.eqb_eq in E. exfalso.
    apply (next_rowid_fresh (map subject_id (tbl_subjects st))).
    rewrite <- E. apply (wf_mark_subject _ Hwf m Hm).
Qed.

Lemma add_rows_keep_reports_witness :
  reachable example_store /\
  @compute_student_report sum_in_turn
    (fst (add_student example_store "R2" "Bob" "BSc")) "" 1
  = @compute_student_report sum_in_turn example_store "" 1 /\
  @compute_student_report sum_in_turn
    (fst (add_student example_store "R2" "Bob" "BSc")) "" 2
  = None.
Proof.
  split; [exact example_store_reachable|].
  destruct (@add_rows_keep_reports sum_in_turn example_store "" 1
              example_store_reachable) as [H1 _].
  destruct (@add_rows_keep_reports sum_in_turn example_store "" 2
              example_store_reachable) as [H2 _].
  split; [apply H1 | rewrite H2; reflexivity].
Defined.

(** ** Signs under rounding *)

Lemma rint_nonneg (q : Q) : 0 <= q -> (0 <= rint q)%Z.
Proof.
  intros H.
  assert (Hf : (0 <= Qfloor q)%Z).
  { rewrite <- (Qfloor_Z 0). apply Qfloor_resp_le. exact H. }
  unfold rint.
  destruct (Qcompare (q - inject_Z (Qfloor q)) (1 # 2));
    [destruct (Z.even (Qfloor q))| |]; lia.
Qed.

Lemma pow2_pos (k : Z) : 0 < PyFloat.pow2 k.
Proof.
  unfold PyFloat.pow2. destruct (0 <=? k)%Z eqn:E.
  - apply Z.leb_le in E. change 0 with (inject_Z 0). rewrite <- Zlt_Qlt.
    apply Z.pow_pos_nonneg; lia.
  - reflexivity.
Qed.

(** Rounding a number that is not negative gives a number that is not
    negative, or +inf. *)
Lemma nearest_nonneg (q : Q) :
  0 <= q ->
  PyFloat.nearest q = PyFloat.PInf
  \/ exists q', PyFloat.nearest q = PyFloat.Fin q' /\ 0 <= q'.
Proof.
  intros H. unfold PyFloat.nearest.
  destruct (Qcompare q 0) eqn:E.
  - right. exists 0. split; [reflexivity | lra].
  - apply Qlt_alt in E. lra.
  - cbv zeta.
    match goal with |- context [Qle_bool ?a ?b] => destruct (Qle_bool a b) end;
      [left; reflexivity|].
    right. eexists. split; [reflexivity|].
    rewrite Qred_correct.
    apply Qmult_le_0_compat; [|apply Qlt_le_weak, pow2_pos].
    change 0 with (inject_Z 0). rewrite <- Zle_Qle. apply rint_nonneg.
    apply Qle_shift_div_l; [apply pow2_pos|].
    rewrite Qmult_0_l. apply Qabs_nonneg.
Qed.

(** With marks >= 0 and max_marks >= 1 the percent is a number that is not
    negative, or +inf. *)
Lemma percent_nonneg (mk mx : Q) :
  0 <= mk -> 1 <= mx ->
  PyFloat.scale (PyFloat.div mk mx) 100 = PyFloat.PInf
  \/ exists q, PyFloat.scale (PyFloat.div mk mx) 100 = PyFloat.Fin q /\ 0 <= q.
Proof.
  intros Hmk Hmx. rewrite div_by_nonzero by lra.
  destruct (nearest_nonneg (mk / mx)) as [->|[q [-> Hq]]].
  - apply Qle_shift_div_l; lra.
  - left. reflexivity.
  - cbn [PyFloat.scale]. apply nearest_nonneg.
    apply Qmult_le_0_compat; [exact Hq | lra].
Qed.

(** ** Listings *)

Section OrderByFacts.
Context {A : Type} (key : A -> string).

Lemma insert_by_hd (x a : A) (l : list A) :
  String.leb (key a) (key x) = true ->
  HdRel (fun u v => String.leb (key u) (key v) = true) a l ->
  HdRel (fun u v => String.leb (key u) (key v) = true) a (insert_by key x l).
Proof.
  intros Hax Hhd. destruct l as [|y l]; simpl; [constructor; exact Hax|].
  destruct (String.leb (key x) (key y)); constructor; [exact Hax|].
  inversion Hhd; assumption.
Qed.

Lemma insert_by_sorted (x : A) (l : list A) :
  Sorted (fun u v => String.leb (key u) (key v) = true) l ->
  Sorted (fun u v => String.leb (key u) (key v) = true) (insert_by key x l).
Proof.
  induction l as [|y l IH]; simpl; intros Hs; [repeat constructor|].
  destruct (String.leb (key x) (key y)) eqn:E.
  - constructor; [exact Hs | constructor; exact E].
  - apply Sorted_inv in Hs as [Hs Hhd].
    constructor; [apply IH, Hs|].
    apply insert_by_hd; [|exact Hhd].
    destruct (String.leb_total (key x) (key y)) as [H|H]; [congruence | exact H].
Qed.

Lemma order_by_sorted (l : list A) :
  Sorted (fun u v => String.leb (key u) (key v) = true) (order_by key l).
Proof.
  induction l as [|x l IH]; simpl; [constructor | apply insert_by_sorted, IH].
Qed.

End OrderByFacts.

(** X6. The students listing holds exactly the rows of the students table,
    each as often as the table does, arranged so that every roll is at most
    the next one in byte order; the subjects listing does the same by code.
    Neither drops, repeats or alters a row. *)
Theorem listings_sorted (st : Store) :
  Permutation (tbl_students st) (get_all_students_df st)
  /\ Sorted (fun a b => String.leb (roll a) (roll b) = true) (get_all_students_df st)
  /\ List.length (get_all_students_df st) = List.length (tbl_students st)
  /\ Permutation (tbl_subjects st) (get_all_subjects_df st)
  /\ Sorted (fun a b => String.leb (code a) (code b) = true) (get_all_subjects_df st)
  /\ List.length (get_all_subjects_df st) = List.length (tbl_subjects st).
Proof.
  unfold get_all_students_df, get_all_subjects_df.
  repeat split.
  - apply order_by_perm.
  - apply order_by_sorted.
  - symmetry. apply Permutation_length, order_by_perm.
  - apply order_by_perm.
  - apply order_by_sorted.
  - symmetry. apply Permutation_length, order_by_perm.
Qed.

(** ** Rows of a report *)

Lemma graded_marks_in (st : Store) (sid : Z) (m : Mark) :
  In m (graded_marks st sid) -> In m (tbl_marks st) /\ m_student_id m = sid.
Proof.
  intros H. apply filter_In in H as [H E]. apply Z.eqb_eq in E. auto.
Qed.

Lemma graded_marks_subjects (st : Store) (sid : Z) :
  wf st -> NoDup (map m_subject_id (graded_marks st sid)).
Proof.
  intros Hwf.
  apply (NoDup_map_inv (fun id => (sid, id))).
  rewrite map_map.
  rewrite (map_ext_in _ mark_pair).
  - apply filter_key_NoDup, wf_pairs, Hwf.
  - intros m Hm. apply graded_marks_in in Hm as [_ <-]. reflexivity.
Qed.

(** Mark by mark, the row the join makes of it. *)
Lemma joined_rows (st : Store) (s : Student) (ms : list Mark) :
  wf st -> (forall m, In m ms -> In m (tbl_marks st)) ->
  Forall2 (fun m row =>
             exists sub, In sub (tbl_subjects st)
                         /\ subject_id sub = m_subject_id m
                         /\ row = grade_row s m sub)
          ms
          (flat_map (fun m =>
             map (grade_row s m)
               (filter (fun sub => Z.eqb (m_subject_id m) (subject_id sub))
                       (tbl_subjects st))) ms).
Proof.
  intros Hwf. induction ms as [|m ms IH]; simpl; intros Hin; [constructor|].
  destruct (join_subject st m Hwf (Hin m (or_introl eq_refl)))
    as [sub [Hsub [Eid Ef]]].
  rewrite Ef. simpl. constructor; [eauto|].
  apply IH. intros x Hx. apply Hin. right. exact Hx.
Qed.

Lemma joined_codes (st : Store) (s : Student) (ms : list Mark) (rows : list GradeRow) :
  wf st ->
  Forall2 (fun m row =>
             exists sub, In sub (tbl_subjects st)
                         /\ subject_id sub = m_subject_id m
                         /\ row = grade_row s m sub) ms rows ->
  NoDup (map m_subject_id ms) -> NoDup (map r_code rows).
Proof.
  intros Hwf. induction 1 as [|m row ms rows [sub [Hsub [Eid ->]]] Hall IH];
    simpl; intros Hnd; [constructor|].
  apply NoDup_cons_iff in Hnd as [Hm Hnd].
  constructor; [|apply IH, Hnd].
  intros Hin. apply Hm. clear IH Hnd Hm.
  induction Hall as [|m' row' ms' rows' [sub' [Hsub' [Eid' ->]]] _ IH'];
    simpl in *; [contradiction|].
  destruct Hin as [E|Hin]; [left | right; apply IH', Hin].
  assert (sub' = sub) as ->
    by (apply (NoDup_key_inj code _ sub' sub (wf_codes _ Hwf) Hsub' Hsub E)).
  congruence.
Qed.

(** X7. In a reachable store, a student without mark rows has no report, and
    a student with mark rows has one whose rows follow the student's mark
    rows one for one, in the order of the marks table: each row carries the
    marks and max_marks of its mark and the code, title and credits of the
    subject the mark points at.  No subject code appears twice in a
    report. *)
Theorem report_one_row_per_mark {S : SeriesSum} (st : Store) (now : string) (s : Student) :
  reachable st -> In s (tbl_students st) ->
  (has_marks st s = false ->
     compute_student_report st now (student_id s) = None)
  /\ (has_marks st s = true ->
     exists rows summ,
       compute_student_report st now (student_id s) = Some (rows, summ)
       /\ List.length rows = List.length (graded_marks st (student_id s))
       /\ Forall2 (fun m row =>
                     r_marks row = marks m /\ r_max_marks row = max_marks m
                     /\ exists sub, In sub (tbl_subjects st)
                          /\ subject_id sub = m_subject_id m
                          /\ r_code row = code sub /\ r_title row = title sub
                          /\ r_credits row = credits sub)
                  (graded_marks st (student_id s)) rows
       /\ NoDup (map r_code rows)).
Proof.
  intros Hreach Hs. apply reachable_wf in Hreach as Hwf.
  pose proof (rank_of_student st now s Hwf Hs) as Hrank. split.
  - intros E. rewrite E in Hrank. unfold rank_of in Hrank.
    destruct (compute_student_report st now (student_id s)) as [[rows summ]|];
      [discriminate Hrank | reflexivity].
  - intros E. rewrite E in Hrank. destruct Hrank as [rows [summ [Hc _]]].
    exists rows, summ. split; [exact Hc|].
    apply compute_student_report_some in Hc as [-> _].
    rewrite (report_rows_student st s Hwf Hs). unfold student_rows.
    pose proof (joined_rows st s (graded_marks st (student_id s)) Hwf
                  (fun m Hm => proj1 (graded_marks_in st _ m Hm))) as Hj.
    split; [symmetry; exact (Forall2_length Hj)|]. split.
    + eapply Forall2_impl; [|exact Hj].
      intros m row [sub [Hsub [Eid ->]]]. cbn. eauto 10.
    + apply (joined_codes st s _ _ Hwf Hj), graded_marks_subjects, Hwf.
Qed.

Lemma report_one_row_per_mark_witness :
  reachable example_store /\
  exists rows summ,
    @compute_student_report sum_in_turn example_store "" 1 = Some (rows, summ)
    /\ List.length rows = 2%nat /\ NoDup (map r_code rows).
Proof.
  split; [exact example_store_reachable|].
  destruct (@report_one_row_per_mark sum_in_turn example_store ""
              (mkStudent 1 "R1" "Ann" "BSc") example_store_reachable)
    as [_ H]; [simpl; auto|].
  destruct (H eq_refl) as [rows [summ [Hc [Hlen [_ Hnd]]]]].
  exists rows, summ. split; [exact Hc|]. split; [exact Hlen | exact Hnd].
Defined.

(** ** Stores made through the forms *)

Lemma form_reachable_reachable (strip : string -> string) (st : Store) :
  form_reachable strip st -> reachable st.
Proof.
  induction 1 as [|st r n p _ IH|st c t cr _ IH _|st r c mk mx _ IH _ _ _ _].
  - constructor.
  - unfold form_add_student.
    destruct (String.eqb (strip r) "" || String.eqb (strip n) "");
      [exact IH | constructor; exact IH].
  - unfold form_add_subject.
    destruct (String.eqb (strip c) "" || String.eqb (strip t) "");
      [exact IH | constructor; exact IH].
  - unfold page_enter_marks.
    destruct (get_all_students_df st), (get_all_subjects_df st); simpl;
      try exact IH.
    constructor. exact IH.
Qed.

Lemma form_wf_add_student (st : Store) (r n p : string) :
  form_wf st -> r <> "" -> n <> "" -> form_wf (fst (add_student st r n p)).
Proof.
  intros [H1 H2 H3] Hr Hn. unfold add_student.
  destruct (existsb (roll_is r) (tbl_students st)); simpl;
    [split; assumption|].
  split; simpl; try assumption.
  intros s Hs. apply in_app_or in Hs as [Hs|[<-|[]]]; [auto | simpl; auto].
Qed.

Lemma form_wf_add_subject (st : Store) (c t : string) (cr : Q) :
  form_wf st -> c <> "" -> t <> "" -> 0 <= cr ->
  form_wf (fst (add_subject st c t cr)).
Proof.
  intros [H1 H2 H3] Hc Ht Hcr. unfold add_subject.
  destruct (existsb (code_is c) (tbl_subjects st)); simpl;
    [split; assumption|].
  split; simpl; try assumption.
  intros s Hs. apply in_app_or in Hs as [Hs|[<-|[]]]; [auto | simpl; auto].
Qed.

Lemma form_wf_add_marks (st : Store) (r c : string) (mk mx : Q) :
  form_wf st -> 0 <= mk -> 1 <= mx -> form_wf (fst (add_marks st r c mk mx)).
Proof.
  intros Hf Hmk Hmx. pose proof Hf as [H1 H2 H3]. unfold add_marks.
  destruct (find (roll_is r) (tbl_students st)) as [s|]; [|exact Hf].
  destruct (find (code_is c) (tbl_subjects st)) as [sub|]; [|exact Hf].
  cbv zeta.
  destruct (find (mark_of (student_id s) (subject_id sub)) (tbl_marks st))
    as [ex|]; simpl; split; simpl; try assumption.
  - intros m Hm. apply in_map_iff in Hm as [m0 [<- Hm0]].
    unfold update_mark. destruct (Z.eqb (mark_id m0) (mark_id ex)); simpl; auto.
  - intros m Hm. apply in_app_or in Hm as [Hm|[<-|[]]]; [auto | simpl; auto].
Qed.

Lemma eqb_empty_false (s : string) : String.eqb s "" = false -> s <> "".
Proof. apply String.eqb_neq. Qed.

Lemma form_reachable_wf (strip : string -> string) (st : Store) :
  form_reachable strip st -> form_wf st.
Proof.
  induction 1 as [|st r n p _ IH|st c t cr _ IH Hcr|st r c mk mx _ IH _ _ Hmk Hmx].
  - split; simpl; intros x [].
  - unfold form_add_student.
    destruct (String.eqb (strip r) "") eqn:Er; [exact IH|].
    destruct (String.eqb (strip n) "") eqn:En; [exact IH|]. simpl.
    apply form_wf_add_student; auto using eqb_empty_false.
  - unfold form_add_subject.
    destruct (String.eqb (strip c) "") eqn:Ec; [exact IH|].
    destruct (String.eqb (strip t) "") eqn:Et; [exact IH|]. simpl.
    apply form_wf_add_subject; auto using eqb_empty_false.
  - unfold page_enter_marks.
    destruct (get_all_students_df st), (get_all_subjects_df st); simpl;
      try exact IH.
    apply form_wf_add_marks; assumption.
Qed.

(** X8. Whatever [str.strip] removes, a store made through the forms is one
    the program can reach, and in it every student has a non-empty roll and
    name, every subject a non-empty code and title and credits >= 0, and
    every mark row has marks >= 0 and max_marks >= 1. *)
Theorem form_store_rows (strip : string -> string) (st : Store) :
  form_reachable strip st ->
  reachable st
  /\ (forall s, In s (tbl_students st) -> roll s <> "" /\ name s <> "")
  /\ (forall sub, In sub (tbl_subjects st) ->
        code sub <> "" /\ title sub <> "" /\ 0 <= credits sub)
  /\ (forall m, In m (tbl_marks st) -> 0 <= marks m /\ 1 <= max_marks m).
Proof.
  intros H. split; [exact (form_reachable_reachable strip st H)|].
  destruct (form_reachable_wf strip st H) as [H1 H2 H3]. auto.
Qed.

Lemma form_example_reachable : form_reachable no_strip form_example.
Proof.
  unfold form_example.
  apply form_marks; [apply form_subject; [apply form_student, form_init|] | | | |].
  - discriminate.
  - simpl. auto.
  - simpl. auto.
  - discriminate.
  - discriminate.
Qed.

Lemma form_store_rows_witness :
  form_reachable no_strip form_example /\
  forall m, In m (tbl_marks form_example) -> 0 <= marks m /\ 1 <= max_marks m.
Proof.
  split; [exact form_example_reachable|].
  destruct (form_store_rows no_strip form_example form_example_reachable)
    as [_ [_ [_ H]]].
  exact H.
Defined.

(** X9. In a store made through the forms no report divides by zero: every
    row of every report has marks >= 0 and max_marks >= 1, and its percent is
    the float64 quotient times 100, which is a number that is not negative,
    or +inf, never NaN and never negative. *)
Theorem form_reports_no_zero_divisor {S : SeriesSum} (strip : string -> string) (st : Store)
        (now : string) (sid : Z) (rows : list GradeRow) (summ : Summary) :
  form_reachable strip st ->
  compute_student_report st now sid = Some (rows, summ) ->
  Forall (fun row =>
            0 <= r_marks row /\ 1 <= r_max_marks row
            /\ r_percent row
               = PyFloat.scale (PyFloat.div (r_marks row) (r_max_marks row)) 100
            /\ (r_percent row = PyFloat.PInf
                \/ exists q, r_percent row = PyFloat.Fin q /\ 0 <= q))
         rows.
Proof.
  intros Hform Hsome.
  destruct (form_reachable_wf strip st Hform) as [_ _ Hmarks].
  apply compute_student_report_some in Hsome as [-> _].
  apply Forall_forall. intros row Hin.
  apply in_report_rows in Hin as [s [m [sub [_ [_ [Hm [_ [_ [_ ->]]]]]]]]].
  destruct (Hmarks m Hm) as [Hmk Hmx].
  cbn [grade_row r_percent r_marks r_max_marks].
  split; [exact Hmk|]. split; [exact Hmx|]. split; [reflexivity|].
  apply percent_nonneg; assumption.
Qed.

Lemma form_reports_no_zero_divisor_witness :
  form_reachable no_strip form_example /\
  exists rows summ,
    @compute_student_report sum_in_turn form_example "" 1 = Some (rows, summ)
    /\ Forall (fun row => 1 <= r_max_marks row) rows.
Proof.
  split; [exact form_example_reachable|].
  eexists _, _. split; [reflexivity|].
  eapply Forall_impl;
    [|exact (@form_reports_no_zero_divisor sum_in_turn no_strip form_example "" 1 _ _
               form_example_reachable eq_refl)].
  intros row H. exact (proj1 (proj2 H)).
Defined.

(** ** Pages *)

Lemma order_by_in {A : Type} (key : A -> string) (l : list A) (x : A) :
  In x (order_by key l) <-> In x l.
Proof.
  split; apply Permutation_in;
    [apply Permutation_sym|]; apply order_by_perm.
Qed.

Lemma listed_rolls (st : Store) (r : string) :
  In r (map roll (get_all_students_df st)) <-> In r (map roll (tbl_students st)).
Proof.
  unfold get_all_students_df. rewrite !in_map_iff.
  split; intros [s [E Hs]]; exists s; (split; [exact E|]);
    apply (order_by_in roll); exact Hs.
Qed.

Lemma listed_codes (st : Store) (c : string) :
  In c (map code (get_all_subjects_df st)) <-> In c (map code (tbl_subjects st)).
Proof.
  unfold get_all_subjects_df. rewrite !in_map_iff.
  split; intros [s [E Hs]]; exists s; (split; [exact E|]);
    apply (order_by_in code); exact Hs.
Qed.

(** X10. On the Enter Marks page the roll and the code come from the
    selectboxes, which offer the rolls and codes of the listings; with such a
    choice the page always runs [add_marks] and ends with "Marks saved",
    never with one of its not-found errors, and in a reachable store the
    chosen pair then has exactly one mark row, with the values entered. *)
Theorem page_enter_marks_saves (st : Store) (r c : string) (mk mx : Q) :
  In r (map roll (get_all_students_df st)) ->
  In c (map code (get_all_subjects_df st)) ->
  page_enter_marks st r c mk mx
  = page_done (fst (add_marks st r c mk mx)) (st_success "Marks saved")
  /\ (reachable st ->
      exists s sub m,
        In s (tbl_students st) /\ roll s = r
        /\ In sub (tbl_subjects st) /\ code sub = c
        /\ filter (mark_of (student_id s) (subject_id sub))
                  (tbl_marks (page_store st (page_enter_marks st r c mk mx))) = [m]
        /\ marks m = mk /\ max_marks m = mx).
Proof.
  intros Hr Hc.
  assert (Hpage : page_enter_marks st r c mk mx
                  = page_done (fst (add_marks st r c mk mx)) (st_success "Marks saved")).
  { pose proof (proj1 (listed_rolls st r) Hr) as Hr'.
    pose proof (proj1 (listed_codes st c) Hc) as Hc'.
    unfold page_enter_marks.
    destruct (get_all_students_df st) as [|s0 ss]; [destruct Hr|].
    destruct (get_all_subjects_df st) as [|u0 us]; [destruct Hc|].
    f_equal.
    destruct (resolve_roll st r Hr') as [s [Es _]].
    destruct (resolve_code st c Hc') as [sub [Ec _]].
    unfold add_marks. rewrite Es, Ec. cbv zeta.
    destruct (find _ (tbl_marks st)); reflexivity. }
  split; [exact Hpage|].
  intros Hreach. apply reachable_wf in Hreach as Hwf.
  rewrite Hpage. cbn [page_store].
  destruct (resolve_roll st r (proj1 (listed_rolls st r) Hr)) as [s [Es [Hs Hrs]]].
  destruct (resolve_code st c (proj1 (listed_codes st c) Hc)) as [sub [Ec [Hsub Hcs]]].
  destruct (add_marks_row st r c mk mx s sub Hwf Es Ec) as [m [Hf [Hmk [Hmx _]]]].
  exists s, sub, m. auto 10.
Qed.

Lemma page_enter_marks_saves_witness :
  page_enter_marks example_store "R1" "CS102" 70 100
  = page_done (fst (add_marks example_store "R1" "CS102" 70 100))
              (st_success "Marks saved").
Proof.
  apply (page_enter_marks_saves example_store "R1" "CS102" 70 100).
  - simpl. auto.
  - simpl. auto.
Defined.

(** X11. On the Student Report page, choosing the roll of a student of a
    reachable store never fails to find the student: the page shows the
    no-marks warning exactly when the report of that student's id is empty,
    and otherwise the report of that very student, headed by the student's
    stored name and the chosen roll, with the cgpa of the summary, one
    display row per report row, and a CSV named after the chosen roll. *)
Theorem page_student_report_selected {S : SeriesSum} (st : Store) (now : string) (s : Student) :
  reachable st -> In s (tbl_students st) ->
  page_student_report st now (roll s)
  = match compute_student_report st now (student_id s) with
    | None => rv_warning "No marks recorded for this student yet."
    | Some (df, summ) =>
      rv_report (name s ++ " — " ++ roll s) (cgpa summ) (map display_row df)
                ("report_" ++ roll s ++ ".csv")
    end.
Proof.
  intros Hreach Hs. apply reachable_wf in Hreach as Hwf.
  unfold page_student_report.
  assert (Hin : In s (get_all_students_df st)) by (apply order_by_in; exact Hs).
  assert (Hnd : NoDup (map roll (get_all_students_df st))).
  { apply (Permutation_NoDup (Permutation_map roll (order_by_perm roll _))).
    apply wf_rolls, Hwf. }
  pose proof (filter_key_unique roll String.eqb String.eqb_eq _ s Hnd Hin) as Hf.
  destruct (get_all_students_df st) as [|s0 ss]; [destruct Hin|].
  rewrite Hf.
  destruct (compute_student_report st now (student_id s)) as [[df summ]|] eqn:E;
    [|reflexivity].
  apply compute_student_report_some in E as [-> [Hne [Hr [Hn _]]]].
  pose proof (report_student_identity st s Hwf Hs) as Hid.
  destruct (report_rows st (student_id s)) as [|r0 rs]; [contradiction|].
  destruct (Forall_inv Hid) as [H1 H2].
  rewrite Hr, Hn, H1, H2. reflexivity.
Qed.

Lemma page_student_report_selected_witness :
  reachable example_store2 /\
  @page_student_report sum_in_turn example_store2 "" "R2"
  = rv_warning "No marks recorded for this student yet.".
Proof.
  split; [exact example_store2_reachable|].
  apply (@page_student_report_selected sum_in_turn example_store2 ""
           (mkStudent 2 "R2" "Bob" "BSc") example_store2_reachable).
  simpl. auto.
Defined.

(** ** Export *)

Lemma join_student (st : Store) (m : Mark) :
  wf st -> In m (tbl_marks st) ->
  exists s,
    In s (tbl_students st) /\ student_id s = m_student_id m /\
    filter (fun s => Z.eqb (m_student_id m) (student_id s)) (tbl_students st) = [s].
Proof.
  intros Hwf Hm. pose proof (wf_mark_student _ Hwf m Hm) as Hin.
  apply in_map_iff in Hin as [s [E Hs]]. exists s.
  split; [exact Hs|]. split; [exact E|].
  rewrite <- E.
  rewrite (filter_ext _ (fun y => Z.eqb (student_id y) (student_id s)))
    by (intros y; apply Z.eqb_sym).
  exact (filter_key_unique student_id Z.eqb Z.eqb_eq _ _ (wf_student_ids _ Hwf) Hs).
Qed.

(** Mark by mark, the row the export join makes of it. *)
Lemma export_joined (st : Store) (ms : list Mark) :
  wf st -> (forall m, In m ms -> In m (tbl_marks st)) ->
  Forall2 (fun m e =>
             exists s sub,
               In s (tbl_students st) /\ student_id s = m_student_id m
               /\ In sub (tbl_subjects st) /\ subject_id sub = m_subject_id m
               /\ e = export_row m s sub)
          ms
          (flat_map (fun m =>
             flat_map (fun s =>
               map (export_row m s)
                 (filter (fun sub => Z.eqb (m_subject_id m) (subject_id sub))
                         (tbl_subjects st)))
               (filter (fun s => Z.eqb (m_student_id m) (student_id s))
                       (tbl_students st))) ms).
Proof.
  intros Hwf. induction ms as [|m ms IH]; simpl; intros Hin; [constructor|].
  pose proof (Hin m (or_introl eq_refl)) as Hm.
  destruct (join_student st m Hwf Hm) as [s [Hs [Es Efs]]].
  destruct (join_subject st m Hwf Hm) as [sub [Hsub [Esub Ef]]].
  rewrite Efs. simpl. rewrite Ef. simpl.
  constructor; [exists s, sub; auto|].
  apply IH. intros x Hx. apply Hin. right. exact Hx.
Qed.

Lemma export_keys (st : Store) (ms : list Mark) (rows : list ExportRow) :
  wf st ->
  Forall2 (fun m e =>
             exists s sub,
               In s (tbl_students st) /\ student_id s = m_student_id m
               /\ In sub (tbl_subjects st) /\ subject_id sub = m_subject_id m
               /\ e = export_row m s sub) ms rows ->
  NoDup (map mark_pair ms) ->
  NoDup (map (fun e => (e_roll e, e_subject_code e)) rows).
Proof.
  intros Hwf.
  induction 1 as [|m e ms rows [s [sub [Hs [Es [Hsub [Esub ->]]]]]] Hall IH];
    simpl; intros Hnd; [constructor|].
  apply NoDup_cons_iff in Hnd as [Hm Hnd].
  constructor; [|apply IH, Hnd].
  intros Hin. apply Hm. clear IH Hnd Hm.
  induction Hall as [|m' e' ms' rows' [s' [sub' [Hs' [Es' [Hsub' [Esub' ->]]]]]] _ IH'];
    simpl in *; [contradiction|].
  destruct Hin as [E|Hin]; [left | right; apply IH', Hin].
  injection E as Er Ec.
  assert (s' = s) as ->
    by (apply (NoDup_key_inj roll _ s' s (wf_rolls _ Hwf) Hs' Hs Er)).
  assert (sub' = sub) as ->
    by (apply (NoDup_key_inj code _ sub' sub (wf_codes _ Hwf) Hsub' Hsub Ec)).
  unfold mark_pair. congruence.
Qed.

Lemma Forall2_left_in {A B : Type} (R : A -> B -> Prop) (l : list A) (l' : list B) (x : A) :
  Forall2 R l l' -> In x l -> exists y, In y l' /\ R x y.
Proof.
  induction 1 as [|a b l l' Hab _ IH]; intros Hin; [destruct Hin|].
  destruct Hin as [<-|Hin].
  - exists b. split; [left; reflexivity | exact Hab].
  - destruct (IH Hin) as [y [Hy Hr]]. exists y. split; [right; exact Hy | exact Hr].
Qed.

Lemma Forall2_right_in {A B : Type} (R : A -> B -> Prop) (l : list A) (l' : list B) (y : B) :
  Forall2 R l l' -> In y l' -> exists x, In x l /\ R x y.
Proof.
  induction 1 as [|a b l l' Hab _ IH]; intros Hin; [destruct Hin|].
  destruct Hin as [<-|Hin].
  - exists a. split; [left; reflexivity | exact Hab].
  - destruct (IH Hin) as [x [Hx Hr]]. exists x. split; [right; exact Hx | exact Hr].
Qed.

(** X12. In a reachable store the marks sheet of the Export page exists and
    holds every mark row exactly once: it has as many rows as the marks
    table, every mark appears with the roll and name of its student and the
    code, title and credits of its subject, every row comes from a mark that
    way, no (roll, subject code) pair appears twice, and the rows are in
    ascending roll. *)
Theorem export_every_mark_once (st : Store) :
  reachable st ->
  (exists out, export_marks_df st out)
  /\ forall out, export_marks_df st out ->
       List.length out = List.length (tbl_marks st)
       /\ (forall m, In m (tbl_marks st) ->
             exists s sub,
               In s (tbl_students st) /\ student_id s = m_student_id m
               /\ In sub (tbl_subjects st) /\ subject_id sub = m_subject_id m
               /\ In (export_row m s sub) out)
       /\ (forall e, In e out ->
             exists m s sub,
               In m (tbl_marks st)
               /\ In s (tbl_students st) /\ student_id s = m_student_id m
               /\ In sub (tbl_subjects st) /\ subject_id sub = m_subject_id m
               /\ e = export_row m s sub)
       /\ NoDup (map (fun e => (e_roll e, e_subject_code e)) out)
       /\ Sorted (fun a b => String.leb (e_roll a) (e_roll b) = true) out.
Proof.
  intros Hreach. apply reachable_wf in Hreach as Hwf. split.
  - exists (order_by e_roll (export_join st)).
    split; [apply order_by_perm | apply order_by_sorted].
  - intros out [Hperm Hsorted].
    pose proof (export_joined st (tbl_marks st) Hwf (fun m H => H)) as Hj.
    fold (export_join st) in Hj.
    split; [|split; [|split; [|split; [|exact Hsorted]]]].
    + rewrite <- (Permutation_length Hperm). symmetry. exact (Forall2_length Hj).
    + intros m Hm.
      destruct (Forall2_left_in _ _ _ m Hj Hm) as [e [He [s [sub [A [B [C [D ->]]]]]]]].
      exists s, sub. repeat split; auto.
      apply (Permutation_in _ Hperm). exact He.
    + intros e He. apply (Permutation_in _ (Permutation_sym Hperm)) in He.
      destruct (Forall2_right_in _ _ _ e Hj He) as [m [Hm [s [sub H]]]].
      exists m, s, sub. split; [exact Hm | exact H].
    + apply (Permutation_NoDup
               (Permutation_map (fun e => (e_roll e, e_subject_code e)) Hperm)).
      apply (export_keys st (tbl_marks st) _ Hwf Hj), wf_pairs, Hwf.
Qed.

Lemma export_every_mark_once_witness :
  reachable example_store /\
  exists out, export_marks_df example_store out /\ List.length out = 2%nat.
Proof.
  split; [exact example_store_reachable|].
  destruct (export_every_mark_once example_store example_store_reachable)
    as [_ Hall].
  assert (Hd : export_marks_df example_store
                 (order_by e_roll (export_join example_store))).
  { split; [apply order_by_perm | apply order_by_sorted]. }
  exists (order_by e_roll (export_join example_store)).
  split; [exact Hd | exact (proj1 (Hall _ Hd))].
Defined.
